(** * weekly_kpi_reporter: period resolution and KPI aggregation

    A shallow embedding of [transform.py] ([compute_date_range] and
    [compute_kpis]) together with the part of pandas those two functions
    rely on, and the properties of the report they compute.

    Modelling conventions.
    - A [pd.Timestamp] is its count of nanoseconds since the epoch (timezone
      naive), an integer of [Z].  Missing timestamps (NaT), missing
      identifiers and pandas' out-of-range timestamps are outside the model:
      the frames hold well-typed rows, as the loader delivers them for
      well-formed CSV files.
    - A [pd.DataFrame] of input rows is the list of its rows, in order.
    - Counts ([nunique], integer sums) are natural numbers.
    - [amount] is a float64 column: IEEE-754 binary64, the kernel's [float].
    - Exceptions are values of [exn], carried by the [result] monad. *)

From Stdlib Require Import ZArith String Ascii.
From Stdlib Require Import PrimFloat Uint63 FloatOps SpecFloat DecimalString.
From stdpp Require Import gmap strings list fin_maps.

Local Open Scope Z_scope.

(** ** Exceptions *)

Inductive exn : Set :=
| NoDataError        (* ValueError("... нет данных.") of compute_date_range *)
| DateParseError     (* pd.to_datetime rejects the string *)
| ZeroDivisionError  (* a true division whose divisor is zero *)
| KeyError.          (* Series.loc on a label the index lacks *)

Inductive result (A : Type) : Type :=
| Ok (a : A)
| Raise (e : exn).
Arguments Ok {A} a.
Arguments Raise {A} e.

#[export] Instance result_ret : MRet result := λ A a, Ok a.
#[export] Instance result_bind : MBind result := λ A B f m,
  match m with
  | Ok a => f a
  | Raise e => Raise e
  end.

(** ** The part of pandas the program uses *)

Module Pandas.

Abbreviation Timestamp := Z (only parsing).

(** Nanoseconds in a day: the stride of [freq="D"] and of
    [Timedelta(days=1)]. *)
Definition NS_PER_DAY : Z := 86400000000000.

(** [Timestamp.normalize()] / [Series.dt.normalize()]: the time of day is
    set to midnight (floor to the day, also before the epoch). *)
Definition normalize (t : Timestamp) : Timestamp := t - t `mod` NS_PER_DAY.

(** [pd.Timedelta(days=k)], in nanoseconds. *)
Definition Timedelta (days : Z) : Z := days * NS_PER_DAY.

(** [Timedelta.days]: whole days, rounded towards minus infinity. *)
Definition days (delta : Z) : Z := delta `div` NS_PER_DAY.

(** [pd.date_range(start, end, freq="D")]: [start], [start] + 1 day, ...
    up to the last such value that is [<= end]; empty when [end < start].
    pandas computes this as an arange from [start] with
    [(end - start) // stride + 1] entries. *)
Definition date_range (start end_ : Timestamp) : list Timestamp :=
  (λ k : nat, start + Z.of_nat k * NS_PER_DAY)
    <$> seq 0 (Z.to_nat ((end_ - start) `div` NS_PER_DAY + 1)).

(** [df.groupby(key)]: the rows of each key, in row order, keys unique. *)
Definition groupby {A} (key : A → Timestamp) (rows : list A)
  : gmap Z (list A) :=
  foldr (λ r groups, <[key r := r :: default [] (groups !! key r)]> groups)
        ∅ rows.

(** [Series.nunique()]: the number of distinct values of a column. *)
Definition nunique `{Countable K} (col : list K) : nat :=
  size (list_to_set col : gset K).

(** A series indexed by a list of labels, as [reindex] produces it. *)
Abbreviation Series V := (list (Z * V)) (only parsing).

(** [s.reindex(index, fill_value=v)]: one entry per label of [index], in
    that order, [v] where [s] has no such label. *)
Definition reindex {V} (index : list Timestamp) (fill_value : V)
    (s : gmap Z V) : Series V :=
  (λ d, (d, default fill_value (s !! d))) <$> index.

(** [s.values] *)
Definition values {V} (s : Series V) : list V := s.*2.

(** [s.loc[d]]: the value at label [d], [KeyError] without one. *)
Fixpoint loc {V} (s : Series V) (d : Timestamp) : result V :=
  match s with
  | [] => Raise KeyError
  | (l, v) :: s' => if decide (l = d) then Ok v else loc s' d
  end.

(** int64 to float64 (counts are far below 2^63, where the primitive
    conversion would wrap). *)
Definition float_of_nat (n : nat) : float :=
  PrimFloat.of_uint63 (Uint63.of_Z (Z.of_nat n)).

(** True division of two integers, [a / b].  Python raises
    [ZeroDivisionError] on a zero divisor; numpy's int64 division warns and
    yields inf or nan there.  Both are recorded as the fault
    [ZeroDivisionError], so a run that ends in [Ok] divided by zero
    nowhere.  For counts below 2^53 the quotient of the two conversions
    is the correctly rounded quotient both languages return. *)
Definition truediv (a b : nat) : result float :=
  if decide (b = 0%nat) then Raise ZeroDivisionError
  else Ok (PrimFloat.div (float_of_nat a) (float_of_nat b)).

(** The entries a float reduction keeps ([skipna=True], the default). *)
Definition dropna (col : list float) : list float :=
  List.filter (λ x, negb (PrimFloat.is_nan x)) col.

(** [Series.sum()] of a float column.  The order and compensation of the
    accumulation are pandas' own; it is written here as a left fold, and no
    result below depends on the value of a sum with more than one term. *)
Definition sum (col : list float) : float :=
  foldl PrimFloat.add 0%float (dropna col).

(** [Series.mean()] of a float column: nan when no entry is kept. *)
Definition mean (col : list float) : float :=
  PrimFloat.div (sum col) (float_of_nat (length (dropna col))).

End Pandas.

Import Pandas.

(** ** Rows of the two input frames and the two results *)

Module UserRow.
Record t (UserId : Type) : Type := mk {
  user_id : UserId;
  registered_at : Timestamp;
  source : string;
}.
Arguments mk {UserId}.
Arguments user_id {UserId}.
Arguments registered_at {UserId}.
Arguments source {UserId}.
End UserRow.

Module PaymentRow.
Record t (UserId PaymentId : Type) : Type := mk {
  payment_id : PaymentId;
  user_id : UserId;
  amount : float;
  currency : string;
  paid_at : Timestamp;
}.
Arguments mk {UserId PaymentId}.
Arguments payment_id {UserId PaymentId}.
Arguments user_id {UserId PaymentId}.
Arguments amount {UserId PaymentId}.
Arguments currency {UserId PaymentId}.
Arguments paid_at {UserId PaymentId}.
End PaymentRow.

(** [daily_df]: the frame [compute_kpis] builds from seven columns. *)
Module DailyFrame.
Record t : Type := mk {
  date : list Timestamp;
  new_users : list nat;
  paying_users : list nat;
  payments_count : list nat;
  revenue : list float;
  conversion : list float;
  avg_check : list float;
}.
End DailyFrame.

Module SummaryKPI.
Record t : Type := mk {
  start_date : Timestamp;
  end_date : Timestamp;
  total_new_users : nat;
  total_paying_users : nat;
  total_revenue : float;
  conversion : float;
  avg_check : option float;
}.
End SummaryKPI.

(** ** transform.py *)

Section Transform.

Context {UserId PaymentId : Type}.
Context `{Countable UserId, Countable PaymentId}.

(** [pd.to_datetime] on a string: the timestamp it denotes, or [None] when
    pandas rejects it.  The parser is pandas'; the program is verified for
    any such parser. *)
Variable to_datetime : string → option Timestamp.

Definition parse (s : string) : result Timestamp :=
  match to_datetime s with
  | Some t => Ok t
  | None => Raise DateParseError
  end.

(** [if not frame.empty: all_dates.append(frame[col].max())], on the column
    of the frame. *)
Definition append_max (all_dates col : list Timestamp) : list Timestamp :=
  match col with
  | [] => all_dates
  | t :: ts => all_dates ++ [foldl Z.max t ts]
  end.

Definition compute_date_range
    (users : list (UserRow.t UserId))
    (payments : list (PaymentRow.t UserId PaymentId))
    (start_date end_date : option string)
    (window_days : Z) : result (Timestamp * Timestamp) :=
  match start_date, end_date with
  | Some start_date, Some end_date =>
      start ← parse start_date;
      end_ ← parse end_date;
      mret (normalize start, normalize end_)
  | _, _ =>
      let all_dates := [] in
      let all_dates := append_max all_dates (UserRow.registered_at <$> users) in
      let all_dates := append_max all_dates (PaymentRow.paid_at <$> payments) in
      match all_dates with
      | [] => Raise NoDataError
      | d :: ds =>
          let last_date := normalize (foldl Z.max d ds) in
          let first_date := last_date - Timedelta (window_days - 1) in
          Ok (first_date, last_date)
      end
  end.

(** The rows kept by the period filter of [compute_kpis] (lines 72-77). *)
Definition users_period (users : list (UserRow.t UserId))
    (start_date end_date : Timestamp) : list (UserRow.t UserId) :=
  filter (λ u, start_date ≤ UserRow.registered_at u
               ∧ UserRow.registered_at u ≤ end_date) users.

Definition payments_period (payments : list (PaymentRow.t UserId PaymentId))
    (start_date end_date : Timestamp) : list (PaymentRow.t UserId PaymentId) :=
  filter (λ p, start_date ≤ PaymentRow.paid_at p
               ∧ PaymentRow.paid_at p ≤ end_date) payments.

(** The added column ["date"] of each filtered frame (lines 80-81). *)
Definition user_date (u : UserRow.t UserId) : Timestamp :=
  normalize (UserRow.registered_at u).

Definition payment_date (p : PaymentRow.t UserId PaymentId) : Timestamp :=
  normalize (PaymentRow.paid_at p).

(** Lines 87-104: one series per metric, grouped by ["date"] and reindexed
    on the days of the period. *)
Definition new_users_by_day (users_period : list (UserRow.t UserId))
    (all_dates : list Timestamp) : Series nat :=
  reindex all_dates 0%nat
    ((λ g, nunique (UserRow.user_id <$> g)) <$> groupby user_date users_period).

Definition paying_users_by_day
    (payments_period : list (PaymentRow.t UserId PaymentId))
    (all_dates : list Timestamp) : Series nat :=
  reindex all_dates 0%nat
    ((λ g, nunique (PaymentRow.user_id <$> g))
       <$> groupby payment_date payments_period).

Definition payments_count_by_day
    (payments_period : list (PaymentRow.t UserId PaymentId))
    (all_dates : list Timestamp) : Series nat :=
  reindex all_dates 0%nat
    ((λ g, nunique (PaymentRow.payment_id <$> g))
       <$> groupby payment_date payments_period).

Definition revenue_by_day
    (payments_period : list (PaymentRow.t UserId PaymentId))
    (all_dates : list Timestamp) : Series float :=
  reindex all_dates 0%float
    ((λ g, Pandas.sum (PaymentRow.amount <$> g))
       <$> groupby payment_date payments_period).

(** Lines 107-116: the loop over [all_dates] that fills
    [conversion_by_day]. *)
Definition conversion_by_day (all_dates : list Timestamp)
    (new_users_by_day paying_users_by_day : Series nat) : result (list float) :=
  mapM (λ d,
          new_u ← loc new_users_by_day d;
          pay_u ← loc paying_users_by_day d;
          if decide (0 < new_u)%nat then truediv pay_u new_u
          else mret 0%float)
       all_dates.

(** Lines 119-128: the loop that fills [avg_check_by_day]. *)
Definition avg_check_by_day (all_dates : list Timestamp)
    (payments_period : list (PaymentRow.t UserId PaymentId)) : list float :=
  (λ d,
     let day_payments :=
       PaymentRow.amount <$> filter (λ p, payment_date p = d) payments_period in
     match day_payments with
     | [] => 0%float
     | _ :: _ => mean day_payments
     end) <$> all_dates.

Definition compute_kpis
    (users : list (UserRow.t UserId))
    (payments : list (PaymentRow.t UserId PaymentId))
    (start_date end_date : Timestamp)
  : result (DailyFrame.t * SummaryKPI.t) :=
  let users_period := users_period users start_date end_date in
  let payments_period := payments_period payments start_date end_date in
  let all_dates := date_range start_date end_date in
  let new_users_by_day := new_users_by_day users_period all_dates in
  let paying_users_by_day := paying_users_by_day payments_period all_dates in
  let payments_count_by_day := payments_count_by_day payments_period all_dates in
  let revenue_by_day := revenue_by_day payments_period all_dates in
  conversion_by_day ←
    conversion_by_day all_dates new_users_by_day paying_users_by_day;
  let avg_check_by_day := avg_check_by_day all_dates payments_period in
  let daily_df :=
    DailyFrame.mk all_dates
      (values new_users_by_day)
      (values paying_users_by_day)
      (values payments_count_by_day)
      (values revenue_by_day)
      conversion_by_day
      avg_check_by_day in
  let total_new_users := sum_list (values new_users_by_day) in
  let total_paying_users := nunique (PaymentRow.user_id <$> payments_period) in
  let total_revenue := Pandas.sum (values revenue_by_day) in
  let avg_check_overall :=
    match payments_period with
    | [] => None
    | _ :: _ => Some (mean (PaymentRow.amount <$> payments_period))
    end in
  conversion_overall ←
    (if decide (0 < total_new_users)%nat
     then truediv total_paying_users total_new_users
     else mret 0%float);
  let summary :=
    SummaryKPI.mk start_date end_date total_new_users total_paying_users
      total_revenue conversion_overall avg_check_overall in
  mret (daily_df, summary).

(** ** The metrics as the specification words them

    Section 4.2 of the specification defines each daily metric from the
    rows of one calendar day, and the conversion as a guarded ratio.  The
    program computes them through [groupby] and [reindex]; the theorems
    below relate the two. *)

(** [ratio num den]: [num / den] if [den > 0], else [0.0]. *)
Definition ratio (num den : nat) : float :=
  if decide (0 < den)%nat
  then PrimFloat.div (float_of_nat num) (float_of_nat den)
  else 0%float.

(** The rows of a frame whose normalized timestamp is the day [d]. *)
Definition users_on (d : Timestamp) (rows : list (UserRow.t UserId))
  : list (UserRow.t UserId) :=
  filter (λ u, normalize (UserRow.registered_at u) = d) rows.

Definition payments_on (d : Timestamp)
    (rows : list (PaymentRow.t UserId PaymentId))
  : list (PaymentRow.t UserId PaymentId) :=
  filter (λ p, normalize (PaymentRow.paid_at p) = d) rows.

(** The number of distinct values of a list. *)
Definition distinct `{Countable K} (l : list K) : nat :=
  length (remove_dups l).

(** The payments of the period as Section 4.2 words the filter: the
    comparison key is the timestamp normalized to its date, compared with
    the two bounds normalized to midnight, so a payment on the calendar
    date [end] belongs to the period at any time of day. *)
Definition payments_in_period (payments : list (PaymentRow.t UserId PaymentId))
    (start_date end_date : Timestamp) : list (PaymentRow.t UserId PaymentId) :=
  filter (λ p, normalize start_date ≤ normalize (PaymentRow.paid_at p)
               ∧ normalize (PaymentRow.paid_at p) ≤ normalize end_date)
    payments.

(** [total_paying_users] as the specification words it: the distinct
    [user_id] count across all payments in the period. *)
Definition paying_users_in_period
    (payments : list (PaymentRow.t UserId PaymentId))
    (start_date end_date : Timestamp) : nat :=
  distinct (PaymentRow.user_id
              <$> payments_in_period payments start_date end_date).

(** [paying_users[d]] as the specification words it: the distinct [user_id]
    count among the payments of the period with normalized [paid_at] equal
    to [d]. *)
Definition paying_users_on_day
    (payments : list (PaymentRow.t UserId PaymentId))
    (start_date end_date d : Timestamp) : nat :=
  distinct (PaymentRow.user_id
              <$> payments_on d
                    (payments_in_period payments start_date end_date)).

End Transform.

(** ** A parser for ISO-8601 strings

    [main.py] documents [--start-date] and [--end-date] as [YYYY-MM-DD].
    This instance of [to_datetime] reads that format, optionally followed by
    a time of day [HH:MM:SS] after a space or a [T]; it is what the concrete
    runs below pass for the pandas parser. *)

Module Iso8601.

(** Days from 1970-01-01 to the given day of the proleptic Gregorian
    calendar. *)
Definition days_from_civil (y m d : Z) : Z :=
  let y := if decide (m ≤ 2) then y - 1 else y in
  let era := y `div` 400 in
  let yoe := y - era * 400 in
  let mp := if decide (2 < m) then m - 3 else m + 9 in
  let doy := (153 * mp + 2) `div` 5 + d - 1 in
  let doe := yoe * 365 + yoe `div` 4 - yoe `div` 100 + doy in
  era * 146097 + doe - 719468.

Definition leap (y : Z) : bool :=
  bool_decide (y `mod` 4 = 0 ∧ (y `mod` 100 ≠ 0 ∨ y `mod` 400 = 0)).

Definition days_in_month (y m : Z) : Z :=
  if decide (m = 2) then (if leap y then 29 else 28)
  else if decide (m = 4 ∨ m = 6 ∨ m = 9 ∨ m = 11) then 30
  else 31.

Definition digit (c : ascii) : option Z :=
  let n := Z.of_nat (nat_of_ascii c) in
  if decide (48 ≤ n ≤ 57) then Some (n - 48) else None.

Fixpoint number (acc : Z) (cs : list ascii) : option Z :=
  match cs with
  | [] => Some acc
  | c :: cs => d ← digit c; number (10 * acc + d) cs
  end.

(** Nanoseconds after midnight of an optional [ HH:MM:SS] suffix. *)
Definition time_of_day (cs : list ascii) : option Z :=
  match cs with
  | [] => Some 0
  | [sep; h1; h2; c1; m1; m2; c2; s1; s2] =>
      if decide ((sep = " " ∨ sep = "T") ∧ c1 = ":" ∧ c2 = ":")%char then
        h ← number 0 [h1; h2];
        m ← number 0 [m1; m2];
        s ← number 0 [s1; s2];
        if decide (h < 24 ∧ m < 60 ∧ s < 60)
        then Some (((h * 60 + m) * 60 + s) * 1000000000)
        else None
      else None
  | _ => None
  end.

Definition to_datetime (s : string) : option Timestamp :=
  match list_ascii_of_string s with
  | y1 :: y2 :: y3 :: y4 :: c1 :: m1 :: m2 :: c2 :: d1 :: d2 :: rest =>
      if decide (c1 = "-" ∧ c2 = "-")%char then
        y ← number 0 [y1; y2; y3; y4];
        m ← number 0 [m1; m2];
        d ← number 0 [d1; d2];
        t ← time_of_day rest;
        if decide (1 ≤ m ≤ 12 ∧ 1 ≤ d ≤ days_in_month y m)
        then Some (days_from_civil y m d * NS_PER_DAY + t)
        else None
      else None
  | _ => None
  end.

End Iso8601.

(** ** Sample frames *)

Module Sample.

(** [mar d hh mm]: the timestamp 2025-03-[d] [hh]:[mm]:00
    (2025-03-01 is day 20148 after the epoch). *)
Definition mar (d hh mm : Z) : Timestamp :=
  (20147 + d) * NS_PER_DAY + (hh * 60 + mm) * 60 * 1000000000.

Definition user (id : string) (t : Timestamp) : UserRow.t string :=
  UserRow.mk id t "organic".

Definition payment (pid uid : string) (a : float) (t : Timestamp)
  : PaymentRow.t string string :=
  PaymentRow.mk pid uid a "RUB" t.

(** Scenario A of the specification. *)
Definition users_A : list (UserRow.t string) :=
  [user "u1" (mar 10 0 0); user "u2" (mar 11 0 0)].

Definition payments_A : list (PaymentRow.t string string) :=
  [payment "p1" "u1" 100 (mar 10 0 0); payment "p2" "u2" 50 (mar 12 0 0)].

(** A week whose last day has activity during the day. *)
Definition users_week : list (UserRow.t string) :=
  [user "u1" (mar 10 9 30); user "u2" (mar 13 18 5); user "u3" (mar 16 23 59)].

Definition payments_week : list (PaymentRow.t string string) :=
  [payment "p1" "u1" 100 (mar 10 9 45); payment "p2" "u3" 50 (mar 16 12 0)].

(** One user paying on two days; one identifier registered on two days. *)
Definition payments_repeat : list (PaymentRow.t string string) :=
  [payment "p1" "u1" 10 (mar 10 8 0); payment "p2" "u1" 20 (mar 11 8 0)].

Definition users_dup : list (UserRow.t string) :=
  [user "u1" (mar 10 8 0); user "u1" (mar 11 8 0)].

End Sample.

(** ** The part of Python the rest of the program uses *)

Module Python.

(** [str(n)] of a non-negative int: its decimal digits. *)
Definition str_int (n : Z) : string :=
  NilEmpty.string_of_uint (N.to_uint (Z.to_N n)).

(** [n] written with at least [width] digits, zero-padded on the left
    (["%0<width>d"] for [n >= 0]). *)
Definition zfill (width : nat) (n : Z) : string :=
  let digits := str_int n in
  string_of_list_ascii (replicate (width - String.length digits) "0"%char)
  +:+ digits.

(** The thousands separators of the [","] option: a comma before every
    group of three digits, counted from the right. *)
Fixpoint group3 (fuel : nat) (rev_digits : list ascii) : list ascii :=
  match fuel, rev_digits with
  | S fuel, a :: b :: c :: (_ :: _) as rest =>
      a :: b :: c :: ","%char :: group3 fuel (drop 3 rev_digits)
  | _, _ => rev_digits
  end.

Definition with_commas (digits : string) : string :=
  let ds := list_ascii_of_string digits in
  string_of_list_ascii (rev (group3 (length ds) (rev ds))).

(** [num / den] rounded to the nearest integer, ties to even
    ([den > 0]). *)
Definition round_half_even (num den : Z) : Z :=
  let q := num `div` den in
  let r := num `mod` den in
  if decide (den < 2 * r) then q + 1
  else if decide (2 * r = den) then (if Z.even q then q else q + 1)
  else q.

(** [m * 2^e * 10^prec], rounded half to even: the digits of a fixed-point
    rendering, which Python rounds correctly from the exact binary
    value. *)
Definition scaled (prec : nat) (m : positive) (e : Z) : Z :=
  let p10 := 10 ^ Z.of_nat prec in
  if decide (0 ≤ e) then Z.pos m * 2 ^ e * p10
  else round_half_even (Z.pos m * p10) (2 ^ (- e)).

Definition fixed (grouping : bool) (prec : nat) (q : Z) : string :=
  let p10 := 10 ^ Z.of_nat prec in
  let int_part := str_int (q `div` p10) in
  let int_part := if grouping then with_commas int_part else int_part in
  match prec with
  | O => int_part
  | S _ => int_part +:+ "." +:+ zfill prec (q `mod` p10)
  end.

(** [format(x, ".<prec>f")] of a float, and [format(x, ",.<prec>f")] with
    [grouping]. *)
Definition format_f (grouping : bool) (prec : nat) (x : float) : string :=
  match Prim2SF x with
  | S754_nan => "nan"
  | S754_infinity s => if s then "-inf" else "inf"
  | S754_zero s => (if s then "-" else "") +:+ fixed grouping prec 0
  | S754_finite s m e =>
      (if s then "-" else "") +:+ fixed grouping prec (scaled prec m e)
  end.

(** The year, month and day of the proleptic Gregorian calendar that lie
    [z] days after 1970-01-01. *)
Definition civil_from_days (z : Z) : Z * Z * Z :=
  let z := z + 719468 in
  let era := z `div` 146097 in
  let doe := z - era * 146097 in
  let yoe :=
    (doe - doe `div` 1460 + doe `div` 36524 - doe `div` 146096) `div` 365 in
  let doy := doe - (365 * yoe + yoe `div` 4 - yoe `div` 100) in
  let mp := (5 * doy + 2) `div` 153 in
  let d := doy - (153 * mp + 2) `div` 5 + 1 in
  let m := if decide (mp < 10) then mp + 3 else mp - 9 in
  let y := yoe + era * 400 in
  (if decide (m ≤ 2) then y + 1 else y, m, d).

(** [date.isoformat()]: [YYYY-MM-DD]. *)
Definition date_isoformat (ymd : Z * Z * Z) : string :=
  let '(y, m, d) := ymd in
  zfill 4 y +:+ "-" +:+ zfill 2 m +:+ "-" +:+ zfill 2 d.

(** ["\n".join(lines)] *)
Definition newline : string := String (ascii_of_nat 10) EmptyString.

Fixpoint join (sep : string) (lines : list string) : string :=
  match lines with
  | [] => ""
  | [l] => l
  | l :: lines => l +:+ sep +:+ join sep lines
  end.

End Python.

(** [pd.Timestamp.min.value] and [pd.Timestamp.max.value]: the timestamps
    pandas represents, 1677-09-21 to 2262-04-11. *)
Definition Timestamp_min : Z := -9223372036854775807.
Definition Timestamp_max : Z := 9223372036854775807.

(** [Timestamp.date()]: the calendar day, the time of day dropped. *)
Definition Timestamp_date (t : Timestamp) : Z * Z * Z :=
  Python.civil_from_days (t `div` NS_PER_DAY).

(** [summary_to_dict]: the dict handed to the report and to the notifier.
    Its keys are the seven of the literal, in that order; it is the record
    of its values, and [items] lists them as [dict.items()] does. *)
Module SummaryDict.

Record t : Type := mk {
  start_date : string;
  end_date : string;
  total_new_users : nat;
  total_paying_users : nat;
  total_revenue : float;
  conversion : float;
  avg_check : option float;
}.

(** A value of the dict, as a cell of the summary sheet holds it. *)
Inductive value : Type :=
| Str (s : string)
| Int (n : nat)
| Float (x : float)
| NoneValue.

Definition items (d : t) : list (string * value) :=
  [ ("start_date", Str (start_date d));
    ("end_date", Str (end_date d));
    ("total_new_users", Int (total_new_users d));
    ("total_paying_users", Int (total_paying_users d));
    ("total_revenue", Float (total_revenue d));
    ("conversion", Float (conversion d));
    ("avg_check", match avg_check d with
                  | Some x => Float x
                  | None => NoneValue
                  end) ].

End SummaryDict.

Definition summary_to_dict (summary : SummaryKPI.t) : SummaryDict.t :=
  SummaryDict.mk
    (Python.date_isoformat (Timestamp_date (SummaryKPI.start_date summary)))
    (Python.date_isoformat (Timestamp_date (SummaryKPI.end_date summary)))
    (SummaryKPI.total_new_users summary)
    (SummaryKPI.total_paying_users summary)
    (SummaryKPI.total_revenue summary)
    (SummaryKPI.conversion summary)
    (SummaryKPI.avg_check summary).

(** ** main.py: the digest sent to Telegram *)

(** The list [lines] of [format_summary_for_message], as it stands when the
    function returns. *)
Definition digest_lines (summary_dict : SummaryDict.t) : list string :=
  let start := SummaryDict.start_date summary_dict in
  let end_ := SummaryDict.end_date summary_dict in
  let total_new_users := SummaryDict.total_new_users summary_dict in
  let total_paying_users := SummaryDict.total_paying_users summary_dict in
  let total_revenue := SummaryDict.total_revenue summary_dict in
  let conversion := SummaryDict.conversion summary_dict in
  let avg_check := SummaryDict.avg_check summary_dict in
  let lines :=
    [ "📊 <b>Weekly KPI Report</b>";
      start +:+ " — " +:+ end_;
      "";
      "👥 Новых пользователей: <b>" +:+ Python.str_int (Z.of_nat total_new_users) +:+ "</b>";
      "💳 Оплативших пользователей: <b>" +:+ Python.str_int (Z.of_nat total_paying_users) +:+ "</b>" ] in
  let lines :=
    if decide (0 < total_new_users)%nat
    then lines ++ [ "📈 Конверсия: <b>"
                    +:+ Python.format_f false 1 (PrimFloat.mul conversion 100)
                    +:+ "%</b>" ]
    else lines in
  let lines :=
    lines ++ [ "💰 Выручка: <b>" +:+ Python.format_f true 2 total_revenue +:+ "</b>" ] in
  let lines :=
    match avg_check with
    | Some avg_check =>
        lines ++ [ "🏷 Средний чек: <b>" +:+ Python.format_f true 2 avg_check +:+ "</b>" ]
    | None => lines
    end in
  lines.

Definition format_summary_for_message (summary_dict : SummaryDict.t) : string :=
  Python.join Python.newline (digest_lines summary_dict).

(** ** Effects: console, file system, HTTP

    Everything the rest of the program does to the outside is an [event] of
    a trace, in order.  What the outside answers (the HTTP response, whether
    a file can be written or read, what the CSV files hold) is a parameter
    of the program, as are pathlib's three pure path functions. *)

Module IO.

(** [requests.post(url, data=..., files=..., timeout=...)]; a file is
    (field, (file name, content)). *)
Record request : Type := mk_request {
  url : string;
  data : list (string * string);
  files : list (string * (string * string));
  timeout : Z;
}.

(** The status code of the response, or no response at all (the call
    raises a [requests] exception). *)
Inductive response : Type :=
| Status (code : Z)
| NoResponse.

Inductive error : Type :=
| Core (e : exn)        (* raised by transform.py *)
| MissingCredentials    (* ValueError of send_telegram_message *)
| HTTPError (code : Z)  (* resp.raise_for_status() *)
| RequestException      (* requests.post got no response *)
| OSError               (* a directory or file operation failed *)
| LoadError.            (* loader.py raised *)

Inductive event (W : Type) : Type :=
| Print (text : string)
| MakeDirs (path : string)
| WriteExcel (path : string) (workbook : W)
| Post (r : request).
Arguments Print {W} text.
Arguments MakeDirs {W} path.
Arguments WriteExcel {W} path workbook.
Arguments Post {W} r.

Inductive outcome (A : Type) : Type :=
| Return (a : A)
| Raised (e : error).
Arguments Return {A} a.
Arguments Raised {A} e.

(** A computation reads the trace so far and returns with the trace
    extended; an exception keeps the events that happened before it. *)
Definition t (W A : Type) : Type := list (event W) → outcome A * list (event W).

Definition ret {W A} (a : A) : t W A := λ tr, (Return a, tr).

Definition raise {W A} (e : error) : t W A := λ tr, (Raised e, tr).

Definition bind {W A B} (m : t W A) (k : A → t W B) : t W B := λ tr,
  match m tr with
  | (Return a, tr') => k a tr'
  | (Raised e, tr') => (Raised e, tr')
  end.

Definition emit {W} (ev : event W) : t W unit := λ tr, (Return tt, tr ++ [ev]).

Definition print {W} (text : string) : t W unit := emit (Print text).

Definition lift {W A} (r : result A) : t W A :=
  match r with
  | Ok a => ret a
  | Raise e => raise (Core e)
  end.

End IO.

(** The events of a trace other than console output. *)
Definition outside {W} (tr : list (IO.event W)) : list (IO.event W) :=
  List.filter (λ ev, match ev with IO.Print _ => false | _ => true end) tr.

Notation "x <- m ;; k" := (IO.bind m (λ x, k))
  (at level 100, m at next level, right associativity, only parsing).
Notation "m ;; k" := (IO.bind m (λ _, k))
  (at level 100, right associativity, only parsing).

Module Args.
Record t : Type := mk {
  users_csv : string;
  payments_csv : string;
  start_date : option string;
  end_date : option string;
  output : string;
  no_telegram : bool;
}.
End Args.

(** config.py; the token and the chat come from the environment. *)
Module Config.
Record t : Type := mk {
  ENABLE_TELEGRAM : bool;
  TELEGRAM_BOT_TOKEN : string;
  TELEGRAM_CHAT_ID : string;
}.
End Config.

Section Program.

Context {UserId PaymentId : Type}.
Context `{Countable UserId, Countable PaymentId}.

(** The four sheets of the report, as [build_excel_report] writes them. *)
Record Workbook : Type := mk_workbook {
  raw_users : list (UserRow.t UserId);
  raw_payments : list (PaymentRow.t UserId PaymentId);
  daily_kpi : DailyFrame.t;
  summary : list (string * SummaryDict.value);
}.

(** The outside. *)
Variable respond : list (IO.event Workbook) → IO.request → IO.response.
Variable can_mkdir : string → bool.
Variable can_write : string → bool.
Variable read_file : string → option string.
Variable load_all :
  string → string →
  option (list (UserRow.t UserId) * list (PaymentRow.t UserId PaymentId)).
Variable to_datetime : string → option Timestamp.

(** [Path(p).parent], [Path(p).name] and [str(Path(p))]; a path is the
    string it was made from. *)
Variable path_parent : string → string.
Variable path_name : string → string.
Variable path_str : string → string.

Definition post (r : IO.request) : IO.t Workbook Z := λ tr,
  match respond tr r with
  | IO.Status code => (IO.Return code, tr ++ [IO.Post r])
  | IO.NoResponse => (IO.Raised IO.RequestException, tr ++ [IO.Post r])
  end.

(** [resp.raise_for_status()] *)
Definition raise_for_status (code : Z) : IO.t Workbook unit :=
  if decide (400 ≤ code < 600) then IO.raise (IO.HTTPError code)
  else IO.ret tt.

(** notifier.py *)
Definition send_telegram_message (token chat_id text : string)
    (file_path : option string) : IO.t Workbook unit :=
  if decide (token = "" ∨ chat_id = "") then IO.raise IO.MissingCredentials
  else
    let base_url := "https://api.telegram.org/bot" +:+ token in
    resp <- post (IO.mk_request (base_url +:+ "/sendMessage")
                    [("chat_id", chat_id); ("text", text);
                     ("parse_mode", "HTML")]
                    [] 15) ;;
    raise_for_status resp ;;
    match file_path with
    | Some file_path =>
        match read_file file_path with
        | Some f =>
            resp <- post (IO.mk_request (base_url +:+ "/sendDocument")
                            [("chat_id", chat_id)]
                            [("document", (path_name file_path, f))] 30) ;;
            raise_for_status resp
        | None => IO.raise IO.OSError
        end
    | None => IO.ret tt
    end.

(** report_builder.py *)
Definition build_excel_report
    (users_df : list (UserRow.t UserId))
    (payments_df : list (PaymentRow.t UserId PaymentId))
    (daily_df : DailyFrame.t) (summary_dict : SummaryDict.t)
    (output_path : string) : IO.t Workbook string :=
  (if can_mkdir (path_parent output_path)
   then IO.emit (IO.MakeDirs (path_parent output_path))
   else IO.raise IO.OSError) ;;
  let summary_rows := SummaryDict.items summary_dict in
  (if can_write output_path
   then IO.emit (IO.WriteExcel output_path
                   (mk_workbook users_df payments_df daily_df summary_rows))
   else IO.raise IO.OSError) ;;
  IO.ret output_path.

(** main.py, from the parsed arguments on, in the steps its comments
    number. *)

(** Step 5: the notification, when it is switched on. *)
Definition main_notify (config : Config.t) (args : Args.t)
    (summary_dict : SummaryDict.t) (report_path : string)
  : IO.t Workbook unit :=
  if negb (Args.no_telegram args) && Config.ENABLE_TELEGRAM config then
    if decide (Config.TELEGRAM_BOT_TOKEN config = ""
               ∨ Config.TELEGRAM_CHAT_ID config = "")
    then IO.print ((Python.newline +:+ "[Telegram] ENABLE_TELEGRAM=True, но не заданы TELEGRAM_BOT_TOKEN/CHAT_ID — отправка пропущена."))
    else
      IO.print ((Python.newline +:+ "[Telegram] Отправляю отчёт...")) ;;
      let text := format_summary_for_message summary_dict in
      send_telegram_message (Config.TELEGRAM_BOT_TOKEN config)
        (Config.TELEGRAM_CHAT_ID config) text (Some report_path) ;;
      IO.print "[Telegram] Готово."
  else IO.ret tt.

(** Steps 2 to 4 on the loaded frames: the period, the KPIs, the report;
    then step 5. *)
Definition main_report (config : Config.t) (args : Args.t)
    (users_df : list (UserRow.t UserId))
    (payments_df : list (PaymentRow.t UserId PaymentId))
  : IO.t Workbook unit :=
  period <- IO.lift (compute_date_range to_datetime users_df payments_df
                       (Args.start_date args) (Args.end_date args) 7) ;;
  let '(start_date, end_date) := period in
  IO.print ("Период отчёта: "
            +:+ Python.date_isoformat (Timestamp_date start_date)
            +:+ " — "
            +:+ Python.date_isoformat (Timestamp_date end_date)) ;;
  kpis <- IO.lift (compute_kpis users_df payments_df start_date end_date) ;;
  let '(daily_df, summary) := kpis in
  let summary_dict := summary_to_dict summary in
  IO.print ((Python.newline +:+ "Итого за период:")) ;;
  IO.print ("  Новых пользователей: "
            +:+ Python.str_int (Z.of_nat (SummaryKPI.total_new_users summary))) ;;
  IO.print ("  Оплативших пользователей: "
            +:+ Python.str_int
                  (Z.of_nat (SummaryKPI.total_paying_users summary))) ;;
  IO.print ("  Выручка: "
            +:+ Python.format_f false 2 (SummaryKPI.total_revenue summary)) ;;
  (if decide (0 < SummaryKPI.total_new_users summary)%nat
   then IO.print ("  Конверсия: "
                  +:+ Python.format_f false 1
                        (PrimFloat.mul (SummaryKPI.conversion summary) 100)
                  +:+ "%")
   else IO.ret tt) ;;
  match SummaryKPI.avg_check summary with
  | Some avg_check =>
      IO.print ("  Средний чек: " +:+ Python.format_f false 2 avg_check)
  | None => IO.ret tt
  end ;;
  report_path <- build_excel_report users_df payments_df daily_df
                   summary_dict (Args.output args) ;;
  IO.print ((Python.newline +:+ "Excel-отчёт сохранён: ") +:+ path_str report_path) ;;
  main_notify config args summary_dict report_path.

(** Step 1 and the check for data. *)
Definition main (config : Config.t) (args : Args.t) : IO.t Workbook unit :=
  IO.print ("Загружаю пользователей из: " +:+ Args.users_csv args) ;;
  IO.print ("Загружаю платежи из: " +:+ Args.payments_csv args) ;;
  frames <- match load_all (Args.users_csv args) (Args.payments_csv args) with
            | Some frames => IO.ret frames
            | None => IO.raise IO.LoadError
            end ;;
  let '(users_df, payments_df) := frames in
  match users_df, payments_df with
  | [], [] => IO.print "Нет данных ни по пользователям, ни по платежам — отчёт не имеет смысла."
  | _, _ => main_report config args users_df payments_df
  end.

End Program.

(** ** A sample outside

    Every call succeeds: the server answers 200, directories and files can
    be written and read, and the loader returns the sample week. *)

Module SampleRun.

Definition config_on : Config.t := Config.mk true "TOKEN" "42".

(** config.py as shipped: sending disabled, no credentials in the
    environment. *)
Definition config_shipped : Config.t := Config.mk false "" "".

Definition args : Args.t :=
  Args.mk "data/users.csv" "data/payments.csv" None None
    "reports/weekly_kpi_report.xlsx" false.

Definition book : Type := @Workbook string string.

Definition respond (tr : list (IO.event book)) (r : IO.request)
  : IO.response := IO.Status 200.


Definition yes (path : string) : bool := true.

Definition read_file (path : string) : option string := Some "xlsx".

Definition load_week (users_csv payments_csv : string)
  : option (list (UserRow.t string) * list (PaymentRow.t string string)) :=
  Some (Sample.users_week, Sample.payments_week).


Definition path_parent (path : string) : string := "reports".
Definition path_name (path : string) : string := "weekly_kpi_report.xlsx".
Definition path_str (path : string) : string := path.

Definition run (config : Config.t) :=
  main respond yes yes read_file load_week Iso8601.to_datetime
    path_parent path_name path_str config args [].

End SampleRun.

(** * Properties *)

(** ** Calendar arithmetic *)

Section Calendar.

Lemma NS_PER_DAY_pos : 0 < NS_PER_DAY.
Proof. reflexivity. Qed.

Lemma normalize_div t : normalize t = t `div` NS_PER_DAY * NS_PER_DAY.
Proof.
  unfold normalize.
  pose proof (Z.div_mod t NS_PER_DAY) as E.
  pose proof NS_PER_DAY_pos. lia.
Qed.

Lemma normalize_bounds t : normalize t ≤ t < normalize t + NS_PER_DAY.
Proof.
  unfold normalize.
  pose proof (Z.mod_pos_bound t NS_PER_DAY NS_PER_DAY_pos). lia.
Qed.

Lemma normalize_midnight t : normalize t = t ↔ t `mod` NS_PER_DAY = 0.
Proof. unfold normalize. lia. Qed.

Lemma normalize_idemp t : normalize (normalize t) = normalize t.
Proof.
  apply normalize_midnight. rewrite normalize_div.
  apply Z.mod_mul. pose proof NS_PER_DAY_pos. lia.
Qed.

Lemma normalize_add_days t k :
  normalize (t + k * NS_PER_DAY) = normalize t + k * NS_PER_DAY.
Proof.
  unfold normalize. rewrite Z.mod_add; [lia|].
  pose proof NS_PER_DAY_pos. lia.
Qed.

(** A midnight is a whole number of days after any other midnight. *)
Lemma midnight_span s e :
  normalize s = s → normalize e = e →
  e - s = days (e - s) * NS_PER_DAY.
Proof.
  intros Hs%normalize_midnight He%normalize_midnight. unfold days.
  pose proof NS_PER_DAY_pos as Hpos.
  assert ((e - s) `mod` NS_PER_DAY = 0) as Hm.
  { rewrite Zminus_mod, Hs, He. reflexivity. }
  pose proof (Z.div_mod (e - s) NS_PER_DAY). lia.
Qed.

Lemma length_date_range s e :
  length (date_range s e) = Z.to_nat (days (e - s) + 1).
Proof. unfold date_range, days. by rewrite length_fmap, length_seq. Qed.

Lemma lookup_date_range s e (i : nat) :
  (i < Z.to_nat (days (e - s) + 1))%nat →
  date_range s e !! i = Some (s + Z.of_nat i * NS_PER_DAY).
Proof.
  intros Hi. unfold date_range, days in *.
  rewrite list_lookup_fmap, lookup_seq_lt by done. reflexivity.
Qed.

Lemma lookup_date_range_Some s e (i : nat) d :
  date_range s e !! i = Some d →
  d = s + Z.of_nat i * NS_PER_DAY ∧ (i < Z.to_nat (days (e - s) + 1))%nat.
Proof.
  intros Hl. pose proof (lookup_lt_Some _ _ _ Hl) as Hlt.
  rewrite length_date_range in Hlt.
  rewrite lookup_date_range in Hl by done. split; congruence.
Qed.

Lemma date_range_reversed s e : e < s → date_range s e = [].
Proof.
  intros Hlt. apply length_zero_iff_nil. rewrite length_date_range.
  unfold days. pose proof NS_PER_DAY_pos.
  assert ((e - s) `div` NS_PER_DAY < 0) by (apply Z.div_lt_upper_bound; lia).
  lia.
Qed.

Lemma days_nonneg s e : s ≤ e → 0 ≤ days (e - s).
Proof.
  intros. unfold days. apply Z.div_pos; [lia | apply NS_PER_DAY_pos].
Qed.

End Calendar.

(** ** Grouping, reindexing and label lookup *)

Section Frames.

Context {A V : Type}.

Lemma lookup_groupby (key : A → Z) (rows : list A) (d : Z) :
  groupby key rows !! d =
    match filter (λ r, key r = d) rows with
    | [] => None
    | g => Some g
    end.
Proof.
  induction rows as [|r rows IH]; simpl; [done|].
  rewrite filter_cons. destruct (decide (key r = d)) as [->|Hne].
  - rewrite lookup_insert_eq, IH.
    by destruct (filter _ rows).
  - by rewrite lookup_insert_ne.
Qed.

(** A metric of the groups, reindexed: at each label the metric of the rows
    with that key, provided the fill value is the metric of no rows. *)
Lemma default_lookup_groupby (fill : V) (f : list A → V) (key : A → Z) rows d :
  f [] = fill →
  default fill ((f <$> groupby key rows) !! d)
  = f (filter (λ r, key r = d) rows).
Proof.
  intros <-. rewrite lookup_fmap, lookup_groupby.
  by destruct (filter _ rows).
Qed.

Lemma values_reindex (index : list Z) (fill : V) (s : gmap Z V) :
  values (reindex index fill s) = (λ d, default fill (s !! d)) <$> index.
Proof.
  unfold values, reindex. rewrite <- list_fmap_compose. done.
Qed.

Lemma length_reindex (index : list Z) (fill : V) (s : gmap Z V) :
  length (reindex index fill s) = length index.
Proof. unfold reindex. by rewrite length_fmap. Qed.

Lemma loc_reindex (index : list Z) (fill : V) (s : gmap Z V) d :
  d ∈ index → loc (reindex index fill s) d = Ok (default fill (s !! d)).
Proof.
  induction index as [|l index IH]; intros Hin; [by apply elem_of_nil in Hin|].
  simpl. destruct (decide (l = d)) as [->|Hne]; [done|].
  apply elem_of_cons in Hin as [->|Hin]; [done | by apply IH].
Qed.

Lemma values_reindex_groupby (f : list A → V) fill (key : A → Z) rows index :
  f [] = fill →
  values (reindex index fill (f <$> groupby key rows))
  = (λ d, f (filter (λ r, key r = d) rows)) <$> index.
Proof.
  intros Hfill. rewrite values_reindex. apply list_fmap_ext. intros _ d _.
  by apply default_lookup_groupby.
Qed.

Lemma loc_reindex_groupby (f : list A → V) fill (key : A → Z) rows index d :
  f [] = fill → d ∈ index →
  loc (reindex index fill (f <$> groupby key rows)) d
  = Ok (f (filter (λ r, key r = d) rows)).
Proof.
  intros Hfill Hd. rewrite loc_reindex by done.
  by rewrite default_lookup_groupby.
Qed.

Lemma loc_absent (s : list (Z * V)) d : d ∉ s.*1 → loc s d = Raise KeyError.
Proof.
  induction s as [|[l v] s IH]; simpl; [done|].
  intros Hn. apply not_elem_of_cons in Hn as [Hne Hn].
  destruct (decide (l = d)); [congruence | by apply IH].
Qed.

(** A loop whose body succeeds on every element succeeds. *)
Lemma mapM_Ok {B C} (f : B → result C) (g : B → C) (l : list B) :
  (∀ x, x ∈ l → f x = Ok (g x)) → mapM f l = Ok (g <$> l).
Proof.
  induction l as [|x l IH]; intros Hf; [done|].
  simpl. rewrite (Hf x) by (apply elem_of_cons; left; reflexivity).
  simpl. rewrite IH; [done|].
  intros y Hy. apply Hf. apply elem_of_cons. by right.
Qed.

End Frames.

Lemma nunique_distinct `{Countable K} (l : list K) : nunique l = distinct l.
Proof.
  unfold nunique, distinct.
  rewrite <- (size_list_to_set (C := gset K) (remove_dups l))
    by apply NoDup_remove_dups.
  f_equal. apply set_eq. intros x.
  rewrite !elem_of_list_to_set. by rewrite elem_of_remove_dups.
Qed.

Lemma truediv_pos a b : (0 < b)%nat → truediv a b = Ok (ratio a b).
Proof.
  intros Hb. unfold truediv, ratio.
  destruct (decide (b = 0%nat)); [lia|].
  by destruct (decide (0 < b)%nat).
Qed.

(** ** What [compute_kpis] returns *)

Section Aggregation.

Context {UserId PaymentId : Type}.
Context `{Countable UserId, Countable PaymentId}.

Implicit Types (users up : list (UserRow.t UserId)).
Implicit Types (payments pp : list (PaymentRow.t UserId PaymentId)).
Implicit Types (ds : list Z).

Lemma nunique_nil `{Countable K} : nunique (@nil K) = 0%nat.
Proof. by rewrite nunique_distinct. Qed.

(** Each series holds, at every day of the index, the metric of the rows of
    that day. *)
Ltac by_day :=
  first [ rewrite values_reindex_groupby by apply nunique_nil;
          apply list_fmap_ext; intros; apply nunique_distinct
        | rewrite loc_reindex_groupby by (done || apply nunique_nil);
          f_equal; apply nunique_distinct
        | by rewrite values_reindex_groupby ].

Lemma values_new_users_by_day up ds :
  values (new_users_by_day up ds)
  = (λ d, distinct (UserRow.user_id <$> users_on d up)) <$> ds.
Proof. unfold new_users_by_day. by_day. Qed.

Lemma values_paying_users_by_day pp ds :
  values (paying_users_by_day pp ds)
  = (λ d, distinct (PaymentRow.user_id <$> payments_on d pp)) <$> ds.
Proof. unfold paying_users_by_day. by_day. Qed.

Lemma values_payments_count_by_day pp ds :
  values (payments_count_by_day pp ds)
  = (λ d, distinct (PaymentRow.payment_id <$> payments_on d pp)) <$> ds.
Proof. unfold payments_count_by_day. by_day. Qed.

Lemma values_revenue_by_day pp ds :
  values (revenue_by_day pp ds)
  = (λ d, Pandas.sum (PaymentRow.amount <$> payments_on d pp)) <$> ds.
Proof. unfold revenue_by_day. by_day. Qed.

Lemma loc_new_users_by_day up ds d :
  d ∈ ds →
  loc (new_users_by_day up ds) d
  = Ok (distinct (UserRow.user_id <$> users_on d up)).
Proof. intros Hd. unfold new_users_by_day. by_day. Qed.

Lemma loc_paying_users_by_day pp ds d :
  d ∈ ds →
  loc (paying_users_by_day pp ds) d
  = Ok (distinct (PaymentRow.user_id <$> payments_on d pp)).
Proof. intros Hd. unfold paying_users_by_day. by_day. Qed.

(** The conversion loop never fails: every label it looks up is in the
    index, and it divides only by a positive count. *)
Lemma conversion_by_day_Ok up pp ds :
  conversion_by_day ds (new_users_by_day up ds) (paying_users_by_day pp ds)
  = Ok ((λ d, ratio (distinct (PaymentRow.user_id <$> payments_on d pp))
                    (distinct (UserRow.user_id <$> users_on d up))) <$> ds).
Proof.
  unfold conversion_by_day. apply mapM_Ok. intros d Hd.
  rewrite loc_new_users_by_day, loc_paying_users_by_day by done. simpl.
  destruct (decide (0 < _)%nat) as [Hpos|Hz].
  - by apply truediv_pos.
  - unfold ratio. by destruct (decide (0 < _)%nat).
Qed.

Lemma avg_check_by_day_eq ds pp :
  avg_check_by_day ds pp
  = (λ d, match PaymentRow.amount <$> payments_on d pp with
          | [] => 0%float
          | _ :: _ => mean (PaymentRow.amount <$> payments_on d pp)
          end) <$> ds.
Proof. reflexivity. Qed.

(** The run of [compute_kpis] on any input: it returns, and every column
    and total is the metric the specification words. *)
Lemma compute_kpis_run users payments s e :
  let up := users_period users s e in
  let pp := payments_period payments s e in
  let ds := date_range s e in
  let new_users := (λ d, distinct (UserRow.user_id <$> users_on d up)) <$> ds in
  let revenue :=
    (λ d, Pandas.sum (PaymentRow.amount <$> payments_on d pp)) <$> ds in
  compute_kpis users payments s e =
    Ok (DailyFrame.mk ds new_users
          ((λ d, distinct (PaymentRow.user_id <$> payments_on d pp)) <$> ds)
          ((λ d, distinct (PaymentRow.payment_id <$> payments_on d pp)) <$> ds)
          revenue
          ((λ d, ratio (distinct (PaymentRow.user_id <$> payments_on d pp))
                       (distinct (UserRow.user_id <$> users_on d up))) <$> ds)
          ((λ d, match PaymentRow.amount <$> payments_on d pp with
                 | [] => 0%float
                 | _ :: _ => mean (PaymentRow.amount <$> payments_on d pp)
                 end) <$> ds),
        SummaryKPI.mk s e
          (sum_list new_users)
          (distinct (PaymentRow.user_id <$> pp))
          (Pandas.sum revenue)
          (ratio (distinct (PaymentRow.user_id <$> pp)) (sum_list new_users))
          (match pp with
           | [] => None
           | _ :: _ => Some (mean (PaymentRow.amount <$> pp))
           end)).
Proof.
  intros up pp ds new_users revenue. unfold compute_kpis.
  fold up pp ds. rewrite conversion_by_day_Ok, avg_check_by_day_eq. simpl.
  rewrite values_new_users_by_day, values_paying_users_by_day,
    values_payments_count_by_day, values_revenue_by_day, nunique_distinct.
  fold new_users revenue.
  destruct (decide (0 < sum_list new_users)%nat) as [Hpos|Hz].
  - rewrite truediv_pos by done. done.
  - simpl. unfold ratio. by destruct (decide (0 < sum_list new_users)%nat).
Qed.

(** The ["date"] column is the day sequence of the period. *)
Lemma compute_kpis_dates users payments s e daily summary :
  compute_kpis users payments s e = Ok (daily, summary) →
  DailyFrame.date daily = date_range s e.
Proof.
  rewrite compute_kpis_run. intros Hrun. by injection Hrun as <- _.
Qed.

End Aggregation.

(** ** The days of a period *)

Section Days.

Lemma filter_none {A} (P : A → Prop) `{∀ x, Decision (P x)} (l : list A) :
  (∀ x, x ∈ l → ¬ P x) → filter P l = [].
Proof.
  induction l as [|x l IH]; intros Hl; [done|].
  rewrite filter_cons. destruct (decide (P x)) as [HP|_].
  - exfalso. apply (Hl x); [apply elem_of_cons; by left | done].
  - apply IH. intros y Hy. apply Hl. apply elem_of_cons. by right.
Qed.

Lemma date_range_ascending s e (i j : nat) di dj :
  (i < j)%nat →
  date_range s e !! i = Some di → date_range s e !! j = Some dj → di < dj.
Proof.
  intros Hij [-> _]%lookup_date_range_Some [-> _]%lookup_date_range_Some.
  pose proof NS_PER_DAY_pos. nia.
Qed.

Lemma date_range_step s e (i : nat) d d' :
  date_range s e !! i = Some d → date_range s e !! S i = Some d' →
  d' = d + NS_PER_DAY.
Proof.
  intros [-> _]%lookup_date_range_Some [-> _]%lookup_date_range_Some. lia.
Qed.

Lemma date_range_NoDup s e : NoDup (date_range s e).
Proof.
  apply NoDup_alt. intros i j d Hi Hj.
  destruct (Nat.lt_trichotomy i j) as [Hlt|[Heq|Hgt]]; [|done|].
  - pose proof (date_range_ascending _ _ _ _ _ _ Hlt Hi Hj). lia.
  - pose proof (date_range_ascending _ _ _ _ _ _ Hgt Hj Hi). lia.
Qed.

Lemma date_range_midnights s e d :
  normalize s = s → d ∈ date_range s e → normalize d = d.
Proof.
  intros Hs [i Hi]%list_elem_of_lookup.
  apply lookup_date_range_Some in Hi as [-> _].
  by rewrite normalize_add_days, Hs.
Qed.

Lemma date_range_head s e : s ≤ e → head (date_range s e) = Some s.
Proof.
  intros Hse. rewrite head_lookup, lookup_date_range.
  - f_equal. lia.
  - pose proof (days_nonneg s e Hse). lia.
Qed.

Lemma date_range_last s e :
  normalize s = s → normalize e = e → s ≤ e →
  last (date_range s e) = Some e.
Proof.
  intros Hs He Hse. pose proof (days_nonneg s e Hse) as Hd.
  rewrite last_lookup, length_date_range, lookup_date_range by lia.
  f_equal. pose proof (midnight_span s e Hs He).
  replace (Z.of_nat (pred (Z.to_nat (days (e - s) + 1)))) with (days (e - s))
    by lia.
  lia.
Qed.

(** Every timestamp between two midnights falls on a day of the range. *)
Lemma normalize_in_date_range s e t :
  normalize s = s → s ≤ t ≤ e → normalize t ∈ date_range s e.
Proof.
  intros Hs [Hst Hte]. pose proof NS_PER_DAY_pos as Hpos.
  assert (0 ≤ days (t - s)) as Hk by (apply days_nonneg; lia).
  assert (normalize t = s + Z.of_nat (Z.to_nat (days (t - s))) * NS_PER_DAY)
    as ->.
  { rewrite Z2Nat.id by done. rewrite normalize_div.
    rewrite normalize_div in Hs. unfold days.
    replace (t - s) with (t + - (s `div` NS_PER_DAY) * NS_PER_DAY) by lia.
    rewrite Z.div_add by lia. rewrite Z.mul_add_distr_r. lia. }
  apply list_elem_of_lookup. exists (Z.to_nat (days (t - s))).
  apply lookup_date_range.
  assert (days (t - s) ≤ days (e - s)).
  { unfold days. apply Z.div_le_mono; lia. }
  lia.
Qed.

End Days.

(** Over a period that starts at a midnight, every kept row falls on a day
    of the table. *)
Lemma kept_user_has_a_day {UserId} (users : list (UserRow.t UserId)) s e u :
  normalize s = s → u ∈ users_period users s e →
  user_date u ∈ date_range s e.
Proof.
  intros Hs [Hin _]%list_elem_of_filter. by apply normalize_in_date_range.
Qed.

Lemma kept_payment_has_a_day {UserId PaymentId}
    (payments : list (PaymentRow.t UserId PaymentId)) s e p :
  normalize s = s → p ∈ payments_period payments s e →
  payment_date p ∈ date_range s e.
Proof.
  intros Hs [Hin _]%list_elem_of_filter. by apply normalize_in_date_range.
Qed.

(** ** The daily table *)

Section Daily.

Context {UserId PaymentId : Type}.
Context `{Countable UserId, Countable PaymentId}.

Implicit Types (users : list (UserRow.t UserId)).
Implicit Types (payments : list (PaymentRow.t UserId PaymentId)).

(** C2: for a period [start <= end] of two midnights, the daily table has
    exactly [(end - start).days + 1] rows in every column; its dates are
    [start], [start] + 1 day, ..., [end]: calendar days, each one day after
    the row before, strictly ascending and without duplicates; and a day on
    which no user of the period registered and no payment of the period was
    made is present with the value zero in every metric. *)
Theorem C2_daily_rows_cover_period users payments s e :
  normalize s = s → normalize e = e → s ≤ e →
  ∃ daily summary,
    compute_kpis users payments s e = Ok (daily, summary) ∧
    let n := Z.to_nat (days (e - s) + 1) in
    (length (DailyFrame.date daily) = n
     ∧ length (DailyFrame.new_users daily) = n
     ∧ length (DailyFrame.paying_users daily) = n
     ∧ length (DailyFrame.payments_count daily) = n
     ∧ length (DailyFrame.revenue daily) = n
     ∧ length (DailyFrame.conversion daily) = n
     ∧ length (DailyFrame.avg_check daily) = n) ∧
    (∀ i : nat, (i < n)%nat →
       DailyFrame.date daily !! i = Some (s + Z.of_nat i * NS_PER_DAY)) ∧
    head (DailyFrame.date daily) = Some s ∧
    last (DailyFrame.date daily) = Some e ∧
    (∀ d, d ∈ DailyFrame.date daily → normalize d = d) ∧
    (∀ (i : nat) d d',
       DailyFrame.date daily !! i = Some d →
       DailyFrame.date daily !! S i = Some d' → d' = d + NS_PER_DAY) ∧
    (∀ (i j : nat) di dj, (i < j)%nat →
       DailyFrame.date daily !! i = Some di →
       DailyFrame.date daily !! j = Some dj → di < dj) ∧
    NoDup (DailyFrame.date daily) ∧
    (∀ (i : nat) d,
       DailyFrame.date daily !! i = Some d →
       (∀ u, u ∈ users → s ≤ UserRow.registered_at u ≤ e →
             normalize (UserRow.registered_at u) ≠ d) →
       (∀ p, p ∈ payments → s ≤ PaymentRow.paid_at p ≤ e →
             normalize (PaymentRow.paid_at p) ≠ d) →
       DailyFrame.new_users daily !! i = Some 0%nat
       ∧ DailyFrame.paying_users daily !! i = Some 0%nat
       ∧ DailyFrame.payments_count daily !! i = Some 0%nat
       ∧ DailyFrame.revenue daily !! i = Some 0%float
       ∧ DailyFrame.conversion daily !! i = Some 0%float
       ∧ DailyFrame.avg_check daily !! i = Some 0%float).
Proof.
  intros Hs He Hse. eexists _, _. split; [apply compute_kpis_run|].
  cbn [DailyFrame.date DailyFrame.new_users DailyFrame.paying_users
       DailyFrame.payments_count DailyFrame.revenue DailyFrame.conversion
       DailyFrame.avg_check].
  split_and!.
  1-7: rewrite ?length_fmap; apply length_date_range.
  - intros i Hi. by apply lookup_date_range.
  - by apply date_range_head.
  - by apply date_range_last.
  - intros d Hd. by apply (date_range_midnights s e).
  - apply date_range_step.
  - apply date_range_ascending.
  - apply date_range_NoDup.
  - (* a day without activity *)
    intros i d Hd Hu Hp.
    assert (users_on d (users_period users s e) = []) as Hno_u
      by (apply filter_none; intros u [? ?]%list_elem_of_filter; by apply Hu).
    assert (payments_on d (payments_period payments s e) = []) as Hno_p
      by (apply filter_none; intros p [? ?]%list_elem_of_filter; by apply Hp).
    rewrite !list_lookup_fmap, Hd. simpl.
    by rewrite Hno_u, Hno_p.
Qed.

(** On the payments its own filter keeps, the summary's
    [total_paying_users] is the number of distinct [user_id] values over
    the whole kept set, while the [paying_users] of each daily row is the
    number of distinct [user_id] values among the kept payments of that day
    alone.  (So a user who pays on two days is one in the total and one in
    each of the two rows.) *)
Lemma paying_users_of_kept_payments users payments s e :
  ∃ daily summary,
    compute_kpis users payments s e = Ok (daily, summary) ∧
    SummaryKPI.total_paying_users summary
      = distinct (PaymentRow.user_id <$> payments_period payments s e) ∧
    length (DailyFrame.paying_users daily) = length (DailyFrame.date daily) ∧
    ∀ (i : nat) d,
      DailyFrame.date daily !! i = Some d →
      DailyFrame.paying_users daily !! i
        = Some (distinct (PaymentRow.user_id
                            <$> payments_on d (payments_period payments s e))).
Proof.
  eexists _, _. split; [apply compute_kpis_run|]. simpl. split_and!.
  - done.
  - by rewrite length_fmap.
  - intros i d Hd. by rewrite list_lookup_fmap, Hd.
Qed.

(** C4: the sum of the [new_users] column over all daily rows equals the
    summary's [total_new_users], exactly, and that total is the sum over
    the days of the table of each day's distinct count, not a distinct
    count over the period.  (So one [user_id] registered on two days is
    counted on each, twice in the total.) *)
Theorem C4_total_new_users_is_daily_sum users payments s e :
  ∃ daily summary,
    compute_kpis users payments s e = Ok (daily, summary) ∧
    sum_list (DailyFrame.new_users daily)
      = SummaryKPI.total_new_users summary ∧
    SummaryKPI.total_new_users summary
      = sum_list ((λ d, distinct (UserRow.user_id
                                    <$> users_on d (users_period users s e)))
                    <$> DailyFrame.date daily).
Proof.
  eexists _, _. split; [apply compute_kpis_run|]. by simpl.
Qed.

Lemma payments_period_none payments s e :
  (∀ p, p ∈ payments → ¬ (s ≤ PaymentRow.paid_at p ≤ e)) →
  payments_period payments s e = [].
Proof. intros Hp. by apply filter_none. Qed.

Lemma users_period_none users s e :
  (∀ u, u ∈ users → ¬ (s ≤ UserRow.registered_at u ≤ e)) →
  users_period users s e = [].
Proof. intros Hu. by apply filter_none. Qed.

(** C5: when the period filter keeps no payment, the summary's [avg_check]
    is [None] (not [Some 0.0]), while the [avg_check] of every daily row is
    exactly [0.0]. *)
Theorem C5_avg_check_none_vs_zero users payments s e :
  (∀ p, p ∈ payments → ¬ (s ≤ PaymentRow.paid_at p ≤ e)) →
  ∃ daily summary,
    compute_kpis users payments s e = Ok (daily, summary) ∧
    SummaryKPI.avg_check summary = None ∧
    length (DailyFrame.avg_check daily) = length (DailyFrame.date daily) ∧
    ∀ (i : nat) d,
      DailyFrame.date daily !! i = Some d →
      DailyFrame.avg_check daily !! i = Some 0%float.
Proof.
  intros Hp%payments_period_none.
  eexists _, _. split; [apply compute_kpis_run|]. simpl. rewrite Hp.
  split_and!.
  - done.
  - by rewrite length_fmap.
  - intros i d Hd. by rewrite list_lookup_fmap, Hd.
Qed.

(** C6: no division by zero occurs, on any input: [compute_kpis] returns
    (a zero divisor would end the run in [ZeroDivisionError]); in every
    daily row the conversion is [paying_users / new_users] when
    [new_users > 0] and [0.0] otherwise; and the summary's conversion is
    [total_paying_users / total_new_users] when [total_new_users > 0] and
    [0.0] when [total_new_users = 0]. *)
Theorem C6_conversion_guarded users payments s e :
  ∃ daily summary,
    compute_kpis users payments s e = Ok (daily, summary) ∧
    length (DailyFrame.conversion daily) = length (DailyFrame.date daily) ∧
    (∀ (i : nat) d,
       DailyFrame.date daily !! i = Some d →
       ∃ new_u pay_u,
         DailyFrame.new_users daily !! i = Some new_u ∧
         DailyFrame.paying_users daily !! i = Some pay_u ∧
         DailyFrame.conversion daily !! i
           = Some (if decide (0 < new_u)%nat
                   then PrimFloat.div (float_of_nat pay_u) (float_of_nat new_u)
                   else 0%float)) ∧
    SummaryKPI.conversion summary
      = (if decide (0 < SummaryKPI.total_new_users summary)%nat
         then PrimFloat.div
                (float_of_nat (SummaryKPI.total_paying_users summary))
                (float_of_nat (SummaryKPI.total_new_users summary))
         else 0%float) ∧
    (SummaryKPI.total_new_users summary = 0%nat →
     SummaryKPI.conversion summary = 0%float).
Proof.
  eexists _, _. split; [apply compute_kpis_run|]. simpl. split_and!.
  - by rewrite !length_fmap.
  - intros i d Hd. eexists _, _. rewrite !list_lookup_fmap, Hd. by simpl.
  - done.
  - intros Hz. unfold ratio. rewrite Hz. done.
Qed.

(** C10: called with [start > end], [compute_kpis] does not raise: it
    returns a daily table with no rows and the summary with
    [total_new_users = 0], [total_paying_users = 0], [total_revenue = 0.0],
    [conversion = 0.0] and [avg_check = None]. *)
Theorem C10_reversed_period_empty_report users payments s e :
  e < s →
  compute_kpis users payments s e
  = Ok (DailyFrame.mk [] [] [] [] [] [] [],
        SummaryKPI.mk s e 0 0 0%float 0%float None).
Proof.
  intros Hlt. rewrite compute_kpis_run.
  rewrite date_range_reversed by done.
  rewrite payments_period_none by (intros; lia).
  reflexivity.
Qed.

End Daily.

(** ** Period resolution *)

Section Period.

Context {UserId PaymentId : Type}.
Variable to_datetime : string → option Z.

Implicit Types (users : list (UserRow.t UserId)).
Implicit Types (payments : list (PaymentRow.t UserId PaymentId)).

Lemma foldl_max_spec t ts :
  foldl Z.max t ts ∈ t :: ts ∧ ∀ x, x ∈ t :: ts → x ≤ foldl Z.max t ts.
Proof.
  revert t. induction ts as [|a ts IH]; intros t; simpl.
  - split; [apply elem_of_cons; by left|].
    intros x Hx%elem_of_cons. destruct Hx as [->|Hx]; [lia|].
    by apply elem_of_nil in Hx.
  - destruct (IH (Z.max t a)) as [Hin Hle]. split.
    + apply elem_of_cons in Hin as [Hm|Hin].
      * rewrite Hm. destruct (Z.max_spec t a) as [[_ ->]|[_ ->]].
        -- apply elem_of_cons. right. apply elem_of_cons. by left.
        -- apply elem_of_cons. by left.
      * apply elem_of_cons. right. apply elem_of_cons. by right.
    + intros x Hx.
      assert (Z.max t a ≤ foldl Z.max (Z.max t a) ts) as Hmax
        by (apply Hle, elem_of_cons; by left).
      apply elem_of_cons in Hx as [->|Hx]; [lia|].
      apply elem_of_cons in Hx as [->|Hx]; [lia|].
      apply Hle, elem_of_cons. by right.
Qed.

(** The dates collected when no explicit period applies, by case on the
    two frames. *)
Lemma append_max_nil all_dates : append_max all_dates [] = all_dates.
Proof. reflexivity. Qed.

Lemma window_span (anchor w : Z) :
  days (anchor - (anchor - Timedelta (w - 1))) + 1 = w.
Proof.
  unfold days, Timedelta.
  replace (anchor - (anchor - (w - 1) * NS_PER_DAY))
    with ((w - 1) * NS_PER_DAY) by lia.
  rewrite Z.div_mul; [lia|]. pose proof NS_PER_DAY_pos. lia.
Qed.

(** C7: with neither bound given and at least one frame non-empty, the
    resolved period is [[anchor - (window_days - 1) days, anchor]], where
    [anchor] is the normalized latest timestamp among the [registered_at]
    of the users and the [paid_at] of the payments; the period spans
    [window_days] calendar days, the last of which is [anchor]. *)
Theorem C7_trailing_window users payments w :
  users ≠ [] ∨ payments ≠ [] →
  ∃ latest,
    let observed :=
      (UserRow.registered_at <$> users) ++ (PaymentRow.paid_at <$> payments) in
    let anchor := normalize latest in
    let first := anchor - (w - 1) * NS_PER_DAY in
    (latest ∈ observed ∧ ∀ t, t ∈ observed → t ≤ latest) ∧
    compute_date_range to_datetime users payments None None w
      = Ok (first, anchor) ∧
    days (anchor - first) + 1 = w ∧
    (1 ≤ w →
     length (date_range first anchor) = Z.to_nat w
     ∧ head (date_range first anchor) = Some first
     ∧ last (date_range first anchor) = Some anchor).
Proof.
  intros Hne.
  assert (∀ latest,
    compute_date_range to_datetime users payments None None w
      = Ok (normalize latest - Timedelta (w - 1), normalize latest) →
    let anchor := normalize latest in
    let first := anchor - (w - 1) * NS_PER_DAY in
    compute_date_range to_datetime users payments None None w
      = Ok (first, anchor) ∧
    days (anchor - first) + 1 = w ∧
    (1 ≤ w →
     length (date_range first anchor) = Z.to_nat w
     ∧ head (date_range first anchor) = Some first
     ∧ last (date_range first anchor) = Some anchor)) as Hwindow.
  { intros latest Hrun anchor first.
    pose proof (window_span anchor w) as Hspan.
    pose proof NS_PER_DAY_pos as Hpos.
    fold (Timedelta (w - 1)) in first. fold first in Hspan.
    split_and!; [done..|]. intros Hw.
    assert (normalize first = first) as Hfirst.
    { unfold first, Timedelta, anchor.
      replace (normalize latest - (w - 1) * NS_PER_DAY)
        with (normalize latest + (- (w - 1)) * NS_PER_DAY) by lia.
      by rewrite normalize_add_days, normalize_idemp. }
    assert (first ≤ anchor) by (unfold first, Timedelta; nia).
    split_and!.
    - rewrite length_date_range. by rewrite Hspan.
    - by apply date_range_head.
    - apply date_range_last; [done | apply normalize_idemp | done]. }
  destruct users as [|u users], payments as [|p payments].
  - by destruct Hne.
  - destruct (foldl_max_spec (PaymentRow.paid_at p)
                (PaymentRow.paid_at <$> payments)) as [Hin Hle].
    exists (foldl Z.max (PaymentRow.paid_at p) (PaymentRow.paid_at <$> payments)).
    split; [by split | by apply Hwindow].
  - destruct (foldl_max_spec (UserRow.registered_at u)
                (UserRow.registered_at <$> users)) as [Hin Hle].
    exists (foldl Z.max (UserRow.registered_at u)
              (UserRow.registered_at <$> users)).
    rewrite app_nil_r. split; [by split | by apply Hwindow].
  - destruct (foldl_max_spec (UserRow.registered_at u)
                (UserRow.registered_at <$> users)) as [Hin_u Hle_u].
    destruct (foldl_max_spec (PaymentRow.paid_at p)
                (PaymentRow.paid_at <$> payments)) as [Hin_p Hle_p].
    set (mu := foldl Z.max (UserRow.registered_at u)
                 (UserRow.registered_at <$> users)) in *.
    set (mp := foldl Z.max (PaymentRow.paid_at p)
                 (PaymentRow.paid_at <$> payments)) in *.
    exists (Z.max mu mp). split; [|by apply Hwindow]. split.
    + destruct (Z.max_spec mu mp) as [[_ ->]|[_ ->]];
        apply elem_of_app; [by right | by left].
    + intros t [Ht|Ht]%elem_of_app.
      * specialize (Hle_u t Ht). lia.
      * specialize (Hle_p t Ht). lia.
Qed.

Lemma append_max_is_nil all_dates col :
  append_max all_dates col = [] ↔ all_dates = [] ∧ col = [].
Proof.
  destruct col as [|t ts]; simpl.
  - split; [by intros -> | by intros [-> _]].
  - split; [|by intros [_ ?]]. intros Happ.
    apply app_eq_nil in Happ as [_ Habs]. discriminate.
Qed.

(** Without both bounds, the only failure is the one on two empty
    frames. *)
Lemma inferred_period_no_data users payments sd ed w :
  ¬ (is_Some sd ∧ is_Some ed) →
  compute_date_range to_datetime users payments sd ed w = Raise NoDataError
  ↔ users = [] ∧ payments = [].
Proof.
  intros Hnot.
  assert (compute_date_range to_datetime users payments sd ed w
          = compute_date_range to_datetime users payments None None w) as ->.
  { destruct sd, ed; try reflexivity. destruct Hnot. split; by eexists. }
  unfold compute_date_range.
  destruct (append_max _ _) as [|d ds] eqn:Hdates.
  - apply append_max_is_nil in Hdates as [Hu Hp].
    apply append_max_is_nil in Hu as [_ Hu].
    apply fmap_nil_inv in Hu, Hp. done.
  - split; [done|]. intros [-> ->]. discriminate.
Qed.

(** C8: period resolution raises the "no data" error exactly when both
    frames are empty and no explicit period (both bounds) was given; given
    both bounds, it returns the two dates they denote, each normalized to
    midnight, whatever their order and whatever the frames hold, also two
    empty ones. *)
Theorem C8_no_data_iff_and_explicit_period users payments sd ed w :
  (compute_date_range to_datetime users payments sd ed w = Raise NoDataError
   ↔ users = [] ∧ payments = [] ∧ ¬ (is_Some sd ∧ is_Some ed)) ∧
  (∀ s e start end_,
     sd = Some s → ed = Some e →
     to_datetime s = Some start → to_datetime e = Some end_ →
     compute_date_range to_datetime users payments sd ed w
     = Ok (normalize start, normalize end_)).
Proof.
  split.
  - destruct (decide (is_Some sd ∧ is_Some ed)) as [[[s ->] [e ->]]|Hnot].
    + split.
      * unfold compute_date_range, parse.
        destruct (to_datetime s), (to_datetime e); discriminate.
      * intros (_ & _ & Hnot). destruct Hnot. split; by eexists.
    + rewrite inferred_period_no_data by done.
      split; [by intros [? ?] | by intros (? & ? & _)].
  - intros s e start end_ -> -> Hs He.
    unfold compute_date_range, parse. by rewrite Hs, He.
Qed.

(** C9: a single explicit bound is ignored altogether: with only the start
    or only the end given, [compute_date_range] returns what it returns
    with neither, never reading the given string (the result is the same
    under any other parser), which is the trailing window, or the "no data"
    error on two empty frames. *)
Theorem C9_partial_bound_ignored users payments w :
  (∀ (other : string → option Z) bound,
     compute_date_range to_datetime users payments (Some bound) None w
     = compute_date_range other users payments None None w) ∧
  (∀ (other : string → option Z) bound,
     compute_date_range to_datetime users payments None (Some bound) w
     = compute_date_range other users payments None None w) ∧
  (users = [] → payments = [] →
   ∀ bound,
     compute_date_range to_datetime users payments (Some bound) None w
       = Raise NoDataError
     ∧ compute_date_range to_datetime users payments None (Some bound) w
       = Raise NoDataError).
Proof.
  split_and!; [done..|]. by intros -> ->.
Qed.

End Period.

(** ** Runs on the sample frames *)

Section Runs.

Import Sample.

(** Scenario A of the specification. *)
Example scenario_A :
  compute_kpis users_A payments_A (mar 10 0 0) (mar 12 0 0)
  = Ok (DailyFrame.mk [mar 10 0 0; mar 11 0 0; mar 12 0 0]
          [1; 1; 0]%nat [1; 0; 1]%nat [1; 0; 1]%nat
          [100; 0; 50]%float [1; 0; 0]%float [100; 0; 50]%float,
        SummaryKPI.mk (mar 10 0 0) (mar 12 0 0) 2 2 150%float 1%float
          (Some 75%float)).
Proof. vm_compute. reflexivity. Qed.

(** The period filter compares the raw timestamp with the bounds: a row
    later than the midnight [end] is dropped, also when it falls on the
    calendar day of [end]. *)
Lemma period_filter_after_midnight {UserId}
    (users : list (UserRow.t UserId)) s e u :
  normalize (UserRow.registered_at u) = e → UserRow.registered_at u ≠ e →
  u ∉ users_period users s e.
Proof.
  intros Hday Hne [[_ Hle] _]%list_elem_of_filter.
  pose proof (normalize_bounds (UserRow.registered_at u)). lia.
Qed.

(** C1: violated by the code.  In the sample week 2025-03-10 to
    2025-03-16, which is also the period [compute_date_range] infers from
    these frames, the user registered on 2025-03-16 at 23:59 and the
    payment made on 2025-03-16 at 12:00 both fall on the calendar date
    [end], and the period filter of [compute_kpis] drops both: the filter
    compares the raw timestamp with the midnight bound.  The row of
    2025-03-16 is empty and the totals miss the two records. *)
Theorem C1_end_of_day_rows_dropped :
  let start := mar 10 0 0 in
  let end_ := mar 16 0 0 in
  let late_user := user "u3" (mar 16 23 59) in
  let late_payment := payment "p2" "u3" 50 (mar 16 12 0) in
  late_user ∈ users_week
  ∧ normalize (UserRow.registered_at late_user) = end_
  ∧ late_payment ∈ payments_week
  ∧ normalize (PaymentRow.paid_at late_payment) = end_
  ∧ compute_date_range Iso8601.to_datetime users_week payments_week
      None None 7 = Ok (start, end_)
  ∧ users_period users_week start end_
    = [user "u1" (mar 10 9 30); user "u2" (mar 13 18 5)]
  ∧ payments_period payments_week start end_
    = [payment "p1" "u1" 100 (mar 10 9 45)]
  ∧ ∃ daily summary,
      compute_kpis users_week payments_week start end_ = Ok (daily, summary)
      ∧ DailyFrame.new_users daily = [1; 0; 0; 1; 0; 0; 0]%nat
      ∧ DailyFrame.paying_users daily = [1; 0; 0; 0; 0; 0; 0]%nat
      ∧ SummaryKPI.total_new_users summary = 2%nat
      ∧ SummaryKPI.total_paying_users summary = 1%nat
      ∧ SummaryKPI.total_revenue summary = 100%float.
Proof.
  cbv zeta. split_and!.
  - unfold users_week. set_solver.
  - vm_compute. reflexivity.
  - unfold payments_week. set_solver.
  - vm_compute. reflexivity.
  - vm_compute. reflexivity.
  - vm_compute. reflexivity.
  - vm_compute. reflexivity.
  - eexists _, _. split; [vm_compute; reflexivity|]. by simpl.
Qed.

(** C3: violated by the code, through the defect of C1.  In the sample
    week both payments fall on calendar dates of the period 2025-03-10 to
    2025-03-16, so the payments of the period have two distinct payers and
    2025-03-16 has one.  The period filter of [compute_kpis] compares the
    raw [paid_at] with the midnight bound and drops the payment made on
    2025-03-16 at 12:00: the summary's [total_paying_users] is 1 and the
    [paying_users] of the row of 2025-03-16 is 0. *)
Theorem C3_end_day_payer_not_counted :
  let start := mar 10 0 0 in
  let end_ := mar 16 0 0 in
  compute_date_range Iso8601.to_datetime users_week payments_week
    None None 7 = Ok (start, end_)
  ∧ payments_in_period payments_week start end_ = payments_week
  ∧ paying_users_in_period payments_week start end_ = 2%nat
  ∧ paying_users_on_day payments_week start end_ end_ = 1%nat
  ∧ ∃ daily summary,
      compute_kpis users_week payments_week start end_ = Ok (daily, summary)
      ∧ SummaryKPI.total_paying_users summary = 1%nat
      ∧ DailyFrame.date daily !! 6%nat = Some end_
      ∧ DailyFrame.paying_users daily !! 6%nat = Some 0%nat.
Proof.
  cbv zeta. split_and!.
  - vm_compute. reflexivity.
  - vm_compute. reflexivity.
  - vm_compute. reflexivity.
  - vm_compute. reflexivity.
  - eexists _, _. split; [vm_compute; reflexivity|]. by simpl.
Qed.

(** A user who pays on two days: once in the total, once in each row. *)
Lemma repeat_payer_counts :
  ∃ daily summary,
    compute_kpis [] payments_repeat (mar 10 0 0) (mar 12 0 0)
      = Ok (daily, summary)
    ∧ SummaryKPI.total_paying_users summary = 1%nat
    ∧ DailyFrame.paying_users daily !! 0%nat = Some 1%nat
    ∧ DailyFrame.paying_users daily !! 1%nat = Some 1%nat
    ∧ DailyFrame.paying_users daily !! 2%nat = Some 0%nat.
Proof.
  destruct (paying_users_of_kept_payments [] payments_repeat
              (mar 10 0 0) (mar 12 0 0))
    as (daily & summary & Hrun & Htotal & _ & Hday).
  exists daily, summary. rewrite Htotal.
  assert (DailyFrame.date daily = [mar 10 0 0; mar 11 0 0; mar 12 0 0])
    as Hdates.
  { rewrite (compute_kpis_dates _ _ _ _ _ _ Hrun). by vm_compute. }
  split_and!; [done | by vm_compute | ..].
  - rewrite (Hday 0%nat (mar 10 0 0)) by (by rewrite Hdates). by vm_compute.
  - rewrite (Hday 1%nat (mar 11 0 0)) by (by rewrite Hdates). by vm_compute.
  - rewrite (Hday 2%nat (mar 12 0 0)) by (by rewrite Hdates). by vm_compute.
Defined.

(** One [user_id] registered on two days: each day counts it, and the
    total is the sum, 2, although the period holds one distinct user. *)
Lemma C4_duplicate_registration :
  ∃ daily summary,
    compute_kpis users_dup ([] : list (PaymentRow.t string string))
      (mar 10 0 0) (mar 12 0 0) = Ok (daily, summary)
    ∧ sum_list (DailyFrame.new_users daily) = 2%nat
    ∧ SummaryKPI.total_new_users summary = 2%nat
    ∧ distinct (UserRow.user_id
                  <$> users_period users_dup (mar 10 0 0) (mar 12 0 0))
      = 1%nat.
Proof.
  destruct (C4_total_new_users_is_daily_sum users_dup
              ([] : list (PaymentRow.t string string))
              (mar 10 0 0) (mar 12 0 0))
    as (daily & summary & Hrun & Hsum & Htotal).
  exists daily, summary. rewrite Hsum, Htotal.
  assert (DailyFrame.date daily = [mar 10 0 0; mar 11 0 0; mar 12 0 0])
    as ->.
  { rewrite (compute_kpis_dates _ _ _ _ _ _ Hrun). by vm_compute. }
  split_and!; [done | by vm_compute..].
Defined.

(** Scenario A: a day with a registration and a payer, and the period. *)
Lemma C6_scenario_A_conversion :
  ∃ daily summary,
    compute_kpis users_A payments_A (mar 10 0 0) (mar 12 0 0)
      = Ok (daily, summary)
    ∧ DailyFrame.conversion daily = [1; 0; 0]%float
    ∧ SummaryKPI.conversion summary = 1%float.
Proof.
  destruct (C6_conversion_guarded users_A payments_A
              (mar 10 0 0) (mar 12 0 0))
    as (daily & summary & Hrun & _).
  exists daily, summary. split; [done|].
  rewrite scenario_A in Hrun. by injection Hrun as <- <-.
Defined.

(** The sample week with only one bound given. *)
Lemma C9_sample_week_one_bound :
  compute_date_range Iso8601.to_datetime users_week payments_week
    (Some "2025-03-01"%string) None 7 = Ok (mar 10 0 0, mar 16 0 0)
  ∧ compute_date_range Iso8601.to_datetime users_week payments_week
      None (Some "not a date"%string) 7 = Ok (mar 10 0 0, mar 16 0 0).
Proof.
  destruct (C9_partial_bound_ignored Iso8601.to_datetime
              users_week payments_week 7) as (Hstart & Hend & _).
  rewrite (Hstart Iso8601.to_datetime), (Hend Iso8601.to_datetime).
  split; by vm_compute.
Defined.

(** A zero divisor is a fault of the model, so [Ok] excludes it. *)
Example truediv_by_zero a : truediv a 0 = Raise ZeroDivisionError.
Proof. reflexivity. Qed.

(** Scenario A, a period of two midnights: three rows. *)
Lemma C2_scenario_A_rows :
  ∃ daily summary,
    compute_kpis users_A payments_A (mar 10 0 0) (mar 12 0 0)
      = Ok (daily, summary)
    ∧ length (DailyFrame.date daily) = 3%nat
    ∧ last (DailyFrame.date daily) = Some (mar 12 0 0).
Proof.
  destruct (C2_daily_rows_cover_period users_A payments_A
              (mar 10 0 0) (mar 12 0 0))
    as (daily & summary & Hrun & Hlen & _ & _ & Hlast & _);
    [by vm_compute..|].
  exists daily, summary. split_and!; [done| |done].
  destruct Hlen as [-> _]. by vm_compute.
Defined.

(** The sample week restricted to 2025-03-11 .. 2025-03-12, where nobody
    paid. *)
Lemma C5_quiet_days :
  ∃ daily summary,
    compute_kpis users_week payments_week (mar 11 0 0) (mar 12 0 0)
      = Ok (daily, summary)
    ∧ SummaryKPI.avg_check summary = None
    ∧ DailyFrame.avg_check daily !! 0%nat = Some 0%float
    ∧ DailyFrame.avg_check daily !! 1%nat = Some 0%float.
Proof.
  destruct (C5_avg_check_none_vs_zero users_week payments_week
              (mar 11 0 0) (mar 12 0 0))
    as (daily & summary & Hrun & Hnone & Hlen & Hzero).
  { intros p Hp. unfold payments_week in Hp.
    repeat (apply elem_of_cons in Hp as [->|Hp]);
      [..|by apply elem_of_nil in Hp]; vm_compute; by intros [? ?]. }
  exists daily, summary. split_and!; [done..| |].
  - apply (Hzero 0%nat (mar 11 0 0)).
    rewrite (compute_kpis_dates _ _ _ _ _ _ Hrun). by vm_compute.
  - apply (Hzero 1%nat (mar 12 0 0)).
    rewrite (compute_kpis_dates _ _ _ _ _ _ Hrun). by vm_compute.
Defined.

(** The window inferred from the sample week. *)
Lemma C7_sample_week :
  compute_date_range Iso8601.to_datetime users_week payments_week None None 7
  = Ok (mar 10 0 0, mar 16 0 0).
Proof.
  destruct (C7_trailing_window Iso8601.to_datetime users_week payments_week 7)
    as (latest & [Hin Hmax] & Hrun & _); [left; discriminate|].
  rewrite Hrun. clear Hrun.
  assert (latest = mar 16 23 59) as ->; [|by vm_compute].
  assert (mar 16 23 59 ≤ latest) as Hle.
  { apply Hmax, list_elem_of_In. cbn.
    repeat (first [left; reflexivity | right]). }
  apply list_elem_of_In in Hin. cbn in Hin.
  unfold mar, NS_PER_DAY in *. lia.
Defined.

(** Both bounds given, in the wrong order, on two empty frames. *)
Lemma C8_explicit_reversed :
  compute_date_range (UserId := string) (PaymentId := string)
    Iso8601.to_datetime [] []
    (Some "2025-03-12 10:00:00"%string) (Some "2025-03-10"%string) 7
  = Ok (mar 12 0 0, mar 10 0 0).
Proof.
  rewrite (proj2 (C8_no_data_iff_and_explicit_period (UserId := string)
                    (PaymentId := string) Iso8601.to_datetime [] []
                    (Some "2025-03-12 10:00:00"%string)
                    (Some "2025-03-10"%string) 7)
             "2025-03-12 10:00:00"%string "2025-03-10"%string
             (mar 12 10 0) (mar 10 0 0));
    by vm_compute.
Defined.

(** Scenario A asked for 2025-03-12 .. 2025-03-10. *)
Lemma C10_scenario_A_reversed :
  compute_kpis users_A payments_A (mar 12 0 0) (mar 10 0 0)
  = Ok (DailyFrame.mk [] [] [] [] [] [] [],
        SummaryKPI.mk (mar 12 0 0) (mar 10 0 0) 0 0 0%float 0%float None).
Proof.
  apply C10_reversed_period_empty_report. by vm_compute.
Defined.

End Runs.

(** ** Counting distinct values *)

Section Distinct.

Context `{Countable K}.
Local Open Scope nat_scope.

Implicit Types (l : list K).

Lemma distinct_size l : distinct l = size (list_to_set l : gset K).
Proof. symmetry. apply nunique_distinct. Qed.

Lemma distinct_NoDup l : NoDup l → distinct l = length l.
Proof. intros Hl. rewrite distinct_size. by apply size_list_to_set. Qed.

Lemma distinct_subseteq l l' :
  (∀ x, x ∈ l → x ∈ l') → distinct l ≤ distinct l'.
Proof.
  intros Hsub. rewrite !distinct_size. apply subseteq_size.
  intros x. rewrite !elem_of_list_to_set. apply Hsub.
Qed.

Lemma distinct_le_length l : distinct l ≤ length l.
Proof.
  unfold distinct. induction l as [|x l IH]; simpl; [done|].
  destruct (decide_rel elem_of x l); simpl; lia.
Qed.

Lemma distinct_app_le l l' : distinct (l ++ l') ≤ distinct l + distinct l'.
Proof.
  rewrite !distinct_size, list_to_set_app_L, size_union_alt.
  assert (size (list_to_set l' ∖ list_to_set l : gset K)
          ≤ size (list_to_set l' : gset K)); [|lia].
  apply subseteq_size. by intros x [? _]%elem_of_difference.
Qed.

Lemma distinct_perm l l' : l ≡ₚ l' → distinct l = distinct l'.
Proof. intros Hp. rewrite !distinct_size. by rewrite Hp. Qed.

End Distinct.

(** ** Rows split by day *)

Section Buckets.

Context {A : Type} (key : A → Z).
Local Open Scope nat_scope.

Lemma filter_filter_same (P : A → Prop) `{∀ x, Decision (P x)} (l : list A) :
  filter P (filter P l) = filter P l.
Proof.
  induction l as [|x l IH]; [done|].
  rewrite filter_cons. destruct (decide (P x)) as [HP|HP]; [|done].
  rewrite filter_cons. destruct (decide (P x)); [|done]. by rewrite IH.
Qed.

(** Every row is counted on exactly one day of a duplicate-free index that
    holds its key. *)
Lemma length_by_day (ds : list Z) (l : list A) :
  NoDup ds → (∀ x, x ∈ l → key x ∈ ds) →
  sum_list ((λ d, length (filter (λ x, key x = d) l)) <$> ds) = length l.
Proof.
  intros Hnd. induction l as [|x l IH]; intros Hkeys.
  - clear. induction ds as [|d ds IHds]; [done|]. exact IHds.
  - assert (key x ∈ ds) as Hx by (apply Hkeys, elem_of_cons; by left).
    assert (∀ y, y ∈ l → key y ∈ ds) as Hl
      by (intros y Hy; apply Hkeys, elem_of_cons; by right).
    specialize (IH Hl). cbn [length]. rewrite <- IH. clear IH Hkeys Hl.
    induction ds as [|d ds IHds]; [by apply elem_of_nil in Hx|].
    apply NoDup_cons in Hnd as [Hd Hnd]. csimpl.
    rewrite filter_cons. destruct (decide (key x = d)) as [Heq|Hne].
    + subst d.
      assert ((λ d, length (filter (λ y, key y = d) (x :: l))) <$> ds
              = (λ d, length (filter (λ y, key y = d) l)) <$> ds) as ->.
      { apply list_fmap_ext. intros i d' Hd'.
        apply list_elem_of_lookup_2 in Hd'.
        rewrite filter_cons.
        destruct (decide (key x = d')); [congruence|done]. }
      simpl. lia.
    + apply elem_of_cons in Hx as [?|Hx]; [done|].
      specialize (IHds Hnd Hx). lia.
Qed.

Lemma distinct_by_day `{Countable K} (f : A → K) (ds : list Z) (l : list A) :
  (∀ x, x ∈ l → key x ∈ ds) →
  distinct (f <$> l)
  ≤ sum_list ((λ d, distinct (f <$> filter (λ x, key x = d) l)) <$> ds).
Proof.
  revert l. induction ds as [|d ds IH]; intros l Hkeys.
  - destruct l as [|x l]; [done|].
    exfalso. eapply elem_of_nil, (Hkeys x), elem_of_cons. by left.
  - csimpl.
    set (rest := filter (λ x, key x ≠ d) l).
    assert (distinct (f <$> l)
            ≤ distinct (f <$> filter (λ x, key x = d) l) + distinct (f <$> rest))
      as Hsplit.
    { etrans; [|apply distinct_app_le]. apply distinct_subseteq.
      intros y (x & -> & Hx)%list_elem_of_fmap. rewrite <- fmap_app.
      apply list_elem_of_fmap_2, elem_of_app.
      destruct (decide (key x = d)); [left|right];
        by apply list_elem_of_filter. }
    assert (distinct (f <$> rest)
            ≤ sum_list ((λ d', distinct (f <$> filter (λ x, key x = d') rest))
                          <$> ds)) as Hrest.
    { apply IH. intros x [Hne Hx]%list_elem_of_filter.
      apply Hkeys in Hx. apply elem_of_cons in Hx as [?|?]; done. }
    assert (sum_list ((λ d', distinct (f <$> filter (λ x, key x = d') rest))
                        <$> ds)
            ≤ sum_list ((λ d', distinct (f <$> filter (λ x, key x = d') l))
                          <$> ds)) as Hmono.
    { clear. induction ds as [|d' ds IHds]; [done|]. csimpl.
      assert (distinct (f <$> filter (λ x, key x = d') rest)
              ≤ distinct (f <$> filter (λ x, key x = d') l)); [|lia].
      apply distinct_subseteq.
      intros y (x & -> & [Hk [_ Hx]%list_elem_of_filter]%list_elem_of_filter)
        %list_elem_of_fmap.
      apply list_elem_of_fmap_2. by apply list_elem_of_filter. }
    lia.
Qed.

End Buckets.

(** ** Shape and totals of the report *)

Section Totals.

Context {UserId PaymentId : Type}.
Context `{Countable UserId, Countable PaymentId}.

Implicit Types (users : list (UserRow.t UserId)).
Implicit Types (payments : list (PaymentRow.t UserId PaymentId)).

Lemma normalize_mono t t' : t ≤ t' → normalize t ≤ normalize t'.
Proof.
  intros Hle. rewrite !normalize_div. pose proof NS_PER_DAY_pos.
  apply Z.mul_le_mono_nonneg_r; [lia|]. apply Z.div_le_mono; lia.
Qed.

(** A day of the table that is not a midnight has no row of any frame. *)
Lemma off_midnight_day_empty {A} (stamp : A → Z) (rows : list A) d :
  normalize d ≠ d → filter (λ r, normalize (stamp r) = d) rows = [].
Proof.
  intros Hd. apply filter_none. intros r _ Hr. apply Hd.
  by rewrite <- Hr, normalize_idemp.
Qed.

Lemma date_range_off_midnight s e d :
  normalize s ≠ s → d ∈ date_range s e → normalize d ≠ d.
Proof.
  intros Hs [i Hi]%list_elem_of_lookup.
  apply lookup_date_range_Some in Hi as [-> _].
  rewrite normalize_add_days. lia.
Qed.

Lemma sum_zeros ds : Pandas.sum ((λ _ : Z, 0%float) <$> ds) = 0%float.
Proof.
  unfold Pandas.sum.
  assert (dropna ((λ _ : Z, 0%float) <$> ds) = (λ _ : Z, 0%float) <$> ds) as ->.
  { induction ds as [|d ds IH]; [done|]. unfold dropna in *. csimpl.
    cbn [List.filter]. by rewrite IH. }
  induction ds as [|d ds IH]; [done|]. exact IH.
Qed.

(** For every input, midnights or not, in order or not, [compute_kpis]
    returns: no label is missing from a reindexed series and no divisor is
    zero.  The seven columns have one length, the number of days from
    [start] to [end], and the summary carries the two bounds as given. *)
Theorem compute_kpis_frame_shape users payments s e :
  ∃ daily summary,
    compute_kpis users payments s e = Ok (daily, summary) ∧
    let n := Z.to_nat (days (e - s) + 1) in
    length (DailyFrame.date daily) = n
    ∧ length (DailyFrame.new_users daily) = n
    ∧ length (DailyFrame.paying_users daily) = n
    ∧ length (DailyFrame.payments_count daily) = n
    ∧ length (DailyFrame.revenue daily) = n
    ∧ length (DailyFrame.conversion daily) = n
    ∧ length (DailyFrame.avg_check daily) = n
    ∧ SummaryKPI.start_date summary = s
    ∧ SummaryKPI.end_date summary = e.
Proof.
  eexists _, _. split; [apply compute_kpis_run|]. simpl.
  rewrite !length_fmap, length_date_range. by split_and!.
Qed.

(** Rows outside the period have no influence on the report: the result on
    the full frames is the result on the rows the filter keeps. *)
Theorem compute_kpis_on_kept_rows users payments s e :
  compute_kpis users payments s e
  = compute_kpis (users_period users s e) (payments_period payments s e) s e.
Proof.
  rewrite !compute_kpis_run. unfold users_period, payments_period.
  by rewrite !filter_filter_same.
Qed.

(** When [start] is not a midnight, no day of the table is one, while the
    rows are grouped by their midnight: every daily metric is zero and so
    are [total_new_users], [total_revenue] and the conversion, whatever the
    frames hold; [total_paying_users] and the summary's [avg_check] still
    describe the payments of the period. *)
Theorem compute_kpis_start_off_midnight users payments s e :
  normalize s ≠ s →
  ∃ daily summary,
    compute_kpis users payments s e = Ok (daily, summary) ∧
    Forall (λ n, n = 0%nat) (DailyFrame.new_users daily) ∧
    Forall (λ n, n = 0%nat) (DailyFrame.paying_users daily) ∧
    Forall (λ n, n = 0%nat) (DailyFrame.payments_count daily) ∧
    Forall (λ x, x = 0%float) (DailyFrame.revenue daily) ∧
    Forall (λ x, x = 0%float) (DailyFrame.conversion daily) ∧
    Forall (λ x, x = 0%float) (DailyFrame.avg_check daily) ∧
    SummaryKPI.total_new_users summary = 0%nat ∧
    SummaryKPI.total_revenue summary = 0%float ∧
    SummaryKPI.conversion summary = 0%float ∧
    SummaryKPI.total_paying_users summary
      = distinct (PaymentRow.user_id <$> payments_period payments s e) ∧
    (SummaryKPI.avg_check summary = None
     ↔ payments_period payments s e = []).
Proof.
  intros Hs. eexists _, _. split; [apply compute_kpis_run|]. simpl.
  set (up := users_period users s e). set (pp := payments_period payments s e).
  assert (∀ d, d ∈ date_range s e → users_on d up = []) as Hu.
  { intros d Hd. apply off_midnight_day_empty.
    by apply (date_range_off_midnight s e). }
  assert (∀ d, d ∈ date_range s e → payments_on d pp = []) as Hp.
  { intros d Hd. apply off_midnight_day_empty.
    by apply (date_range_off_midnight s e). }
  assert ((λ d, distinct (UserRow.user_id <$> users_on d up)) <$> date_range s e
          = (λ _, 0%nat) <$> date_range s e) as ->.
  { apply list_fmap_ext. intros i d Hd%list_elem_of_lookup_2.
    by rewrite Hu. }
  assert ((λ d, Pandas.sum (PaymentRow.amount <$> payments_on d pp))
            <$> date_range s e
          = (λ _, 0%float) <$> date_range s e) as ->.
  { apply list_fmap_ext. intros i d Hd%list_elem_of_lookup_2.
    by rewrite Hp. }
  assert (sum_list ((λ _ : Z, 0%nat) <$> date_range s e) = 0%nat) as ->.
  { clear. induction (date_range s e) as [|d ds IH]; [done|]. exact IH. }
  split_and!.
  - apply Forall_fmap, Forall_true. done.
  - apply Forall_fmap, Forall_forall. intros d Hd. simpl. by rewrite Hp.
  - apply Forall_fmap, Forall_forall. intros d Hd. simpl. by rewrite Hp.
  - apply Forall_fmap, Forall_true. done.
  - apply Forall_fmap, Forall_forall. intros d Hd. simpl.
    by rewrite Hp, Hu.
  - apply Forall_fmap, Forall_forall. intros d Hd. simpl. by rewrite Hp.
  - done.
  - apply sum_zeros.
  - done.
  - done.
  - by destruct pp.
Qed.

End Totals.

(** ** Daily rows against period totals *)

Section Partition.

Context {UserId PaymentId : Type}.
Context `{Countable UserId, Countable PaymentId}.

Implicit Types (users : list (UserRow.t UserId)).
Implicit Types (payments : list (PaymentRow.t UserId PaymentId)).

Lemma distinct_fmap_NoDup `{Countable K} {A} (f : A → K) (P : A → Prop)
    `{∀ x, Decision (P x)} (l : list A) :
  NoDup (f <$> l) → distinct (f <$> filter P l) = length (filter P l).
Proof.
  intros Hnd. rewrite distinct_NoDup; [by rewrite length_fmap|].
  eapply sublist_NoDup; [done|]. apply fmap_sublist, sublist_filter.
Qed.

Lemma sum_distinct_le_length `{Countable K} {A} (f : A → K) (key : A → Z)
    (ds : list Z) (l : list A) :
  (sum_list ((λ d, distinct (f <$> filter (λ x, key x = d) l)) <$> ds)
   ≤ sum_list ((λ d, length (filter (λ x, key x = d) l)) <$> ds))%nat.
Proof.
  induction ds as [|d ds IH]; [done|]. csimpl.
  pose proof (distinct_le_length (f <$> filter (λ x, key x = d) l)) as Hle.
  rewrite length_fmap in Hle. lia.
Qed.

(** Over a period that starts at a midnight, when no [payment_id] occurs
    twice in the payments frame, the [payments_count] column sums to the
    number of payments the period filter keeps: each kept payment is
    counted on exactly one row. *)
Theorem payments_count_sums_to_kept_payments users payments s e :
  normalize s = s →
  NoDup (PaymentRow.payment_id <$> payments) →
  ∃ daily summary,
    compute_kpis users payments s e = Ok (daily, summary) ∧
    sum_list (DailyFrame.payments_count daily)
    = length (payments_period payments s e).
Proof.
  intros Hs Hnd. eexists _, _. split; [apply compute_kpis_run|]. simpl.
  set (pp := payments_period payments s e).
  rewrite <- (length_by_day payment_date (date_range s e) pp).
  - f_equal. apply list_fmap_ext. intros i d _.
    unfold payments_on. apply distinct_fmap_NoDup.
    eapply sublist_NoDup; [done|]. apply fmap_sublist, sublist_filter.
  - apply date_range_NoDup.
  - intros p Hp. by apply (kept_payment_has_a_day payments).
Qed.

(** Over a period that starts at a midnight, [total_paying_users] is at
    most the sum of the daily [paying_users] (a user who pays on several
    days is counted on each), which is at most the number of payments
    kept. *)
Theorem paying_users_total_le_daily_sum users payments s e :
  normalize s = s →
  ∃ daily summary,
    compute_kpis users payments s e = Ok (daily, summary) ∧
    (SummaryKPI.total_paying_users summary
     ≤ sum_list (DailyFrame.paying_users daily))%nat ∧
    (sum_list (DailyFrame.paying_users daily)
     ≤ length (payments_period payments s e))%nat.
Proof.
  intros Hs. eexists _, _. split; [apply compute_kpis_run|]. simpl.
  set (pp := payments_period payments s e).
  assert (∀ p, p ∈ pp → payment_date p ∈ date_range s e) as Hdays
    by (intros p Hp; by apply (kept_payment_has_a_day payments)).
  split.
  - by apply (distinct_by_day payment_date).
  - rewrite <- (length_by_day payment_date (date_range s e) pp
                  (date_range_NoDup s e) Hdays).
    apply (sum_distinct_le_length PaymentRow.user_id payment_date).
Qed.

(** Over a period that starts at a midnight, [total_new_users] lies
    between the number of distinct [user_id] values registered in the
    period and the number of user rows kept; when no [user_id] occurs twice
    in the users frame, it is the number of users kept. *)
Theorem total_new_users_bounds users payments s e :
  normalize s = s →
  ∃ daily summary,
    compute_kpis users payments s e = Ok (daily, summary) ∧
    (distinct (UserRow.user_id <$> users_period users s e)
     ≤ SummaryKPI.total_new_users summary)%nat ∧
    (SummaryKPI.total_new_users summary
     ≤ length (users_period users s e))%nat ∧
    (NoDup (UserRow.user_id <$> users) →
     SummaryKPI.total_new_users summary = length (users_period users s e)).
Proof.
  intros Hs. eexists _, _. split; [apply compute_kpis_run|]. simpl.
  set (up := users_period users s e).
  assert (∀ u, u ∈ up → user_date u ∈ date_range s e) as Hdays
    by (intros u Hu; by apply (kept_user_has_a_day users)).
  split_and!.
  - by apply (distinct_by_day user_date).
  - rewrite <- (length_by_day user_date (date_range s e) up
                  (date_range_NoDup s e) Hdays).
    apply (sum_distinct_le_length UserRow.user_id user_date).
  - intros Hnd.
    rewrite <- (length_by_day user_date (date_range s e) up
                  (date_range_NoDup s e) Hdays).
    f_equal. apply list_fmap_ext. intros i d _.
    unfold users_on. apply distinct_fmap_NoDup.
    eapply sublist_NoDup; [done|]. apply fmap_sublist, sublist_filter.
Qed.

(** The counts do not depend on the order of the rows: on frames that are
    permutations of one another the dates, the three count columns, the
    daily conversions, both user totals and the period conversion are the
    same.  (The float sums are accumulated in row order.) *)
Theorem counts_invariant_under_row_order users users' payments payments' s e :
  users ≡ₚ users' → payments ≡ₚ payments' →
  ∃ daily summary daily' summary',
    compute_kpis users payments s e = Ok (daily, summary) ∧
    compute_kpis users' payments' s e = Ok (daily', summary') ∧
    DailyFrame.date daily = DailyFrame.date daily' ∧
    DailyFrame.new_users daily = DailyFrame.new_users daily' ∧
    DailyFrame.paying_users daily = DailyFrame.paying_users daily' ∧
    DailyFrame.payments_count daily = DailyFrame.payments_count daily' ∧
    DailyFrame.conversion daily = DailyFrame.conversion daily' ∧
    SummaryKPI.total_new_users summary = SummaryKPI.total_new_users summary' ∧
    SummaryKPI.total_paying_users summary
      = SummaryKPI.total_paying_users summary' ∧
    SummaryKPI.conversion summary = SummaryKPI.conversion summary'.
Proof.
  intros Hu Hp. eexists _, _, _, _.
  split; [apply compute_kpis_run|]. split; [apply compute_kpis_run|]. simpl.
  assert (∀ d, distinct (UserRow.user_id <$> users_on d (users_period users s e))
             = distinct (UserRow.user_id
                           <$> users_on d (users_period users' s e))) as Hnew.
  { intros d. apply distinct_perm. unfold users_on, users_period.
    by rewrite Hu. }
  assert (∀ d, distinct (PaymentRow.user_id
                           <$> payments_on d (payments_period payments s e))
             = distinct (PaymentRow.user_id
                           <$> payments_on d (payments_period payments' s e)))
    as Hpay.
  { intros d. apply distinct_perm. unfold payments_on, payments_period.
    by rewrite Hp. }
  assert (∀ d, distinct (PaymentRow.payment_id
                           <$> payments_on d (payments_period payments s e))
             = distinct (PaymentRow.payment_id
                           <$> payments_on d (payments_period payments' s e)))
    as Hcount.
  { intros d. apply distinct_perm. unfold payments_on, payments_period.
    by rewrite Hp. }
  assert (distinct (PaymentRow.user_id <$> payments_period payments s e)
          = distinct (PaymentRow.user_id <$> payments_period payments' s e))
    as Htotal.
  { apply distinct_perm. unfold payments_period. by rewrite Hp. }
  assert ((λ d, distinct (UserRow.user_id
                            <$> users_on d (users_period users s e)))
            <$> date_range s e
          = (λ d, distinct (UserRow.user_id
                              <$> users_on d (users_period users' s e)))
              <$> date_range s e) as Hcol.
  { apply list_fmap_ext. intros i d _. apply Hnew. }
  rewrite Hcol, Htotal. split_and!; try done.
  - apply list_fmap_ext. intros i d _. apply Hpay.
  - apply list_fmap_ext. intros i d _. apply Hcount.
  - apply list_fmap_ext. intros i d _. simpl. by rewrite Hnew, Hpay.
Qed.

End Partition.

(** ** The resolved period and the report over it *)

Section Resolution.

Context {UserId PaymentId : Type}.
Context `{Countable UserId, Countable PaymentId}.
Variable to_datetime : string → option Z.

Implicit Types (users : list (UserRow.t UserId)).
Implicit Types (payments : list (PaymentRow.t UserId PaymentId)).

(** What a successful inference returned. *)
Lemma inferred_period_inv users payments sd ed w a b :
  ¬ (is_Some sd ∧ is_Some ed) →
  compute_date_range to_datetime users payments sd ed w = Ok (a, b) →
  ∃ latest,
    latest ∈ (UserRow.registered_at <$> users)
             ++ (PaymentRow.paid_at <$> payments)
    ∧ (∀ t, t ∈ (UserRow.registered_at <$> users)
                ++ (PaymentRow.paid_at <$> payments) → t ≤ latest)
    ∧ b = normalize latest
    ∧ a = b - (w - 1) * NS_PER_DAY.
Proof.
  intros Hnot.
  assert (compute_date_range to_datetime users payments sd ed w
          = compute_date_range to_datetime users payments None None w) as ->.
  { destruct sd, ed; try reflexivity. destruct Hnot. split; by eexists. }
  unfold compute_date_range, Timedelta.
  destruct users as [|u users], payments as [|p payments]; simpl.
  - discriminate.
  - destruct (foldl_max_spec (PaymentRow.paid_at p)
                (PaymentRow.paid_at <$> payments)) as [Hin Hle].
    intros [= <- <-]. eexists. by split_and!.
  - destruct (foldl_max_spec (UserRow.registered_at u)
                (UserRow.registered_at <$> users)) as [Hin Hle].
    intros [= <- <-]. eexists. rewrite app_nil_r. by split_and!.
  - destruct (foldl_max_spec (UserRow.registered_at u)
                (UserRow.registered_at <$> users)) as [Hin_u Hle_u].
    destruct (foldl_max_spec (PaymentRow.paid_at p)
                (PaymentRow.paid_at <$> payments)) as [Hin_p Hle_p].
    set (mu := foldl Z.max (UserRow.registered_at u)
                 (UserRow.registered_at <$> users)) in *.
    set (mp := foldl Z.max (PaymentRow.paid_at p)
                 (PaymentRow.paid_at <$> payments)) in *.
    intros [= <- <-]. exists (Z.max mu mp). split_and!; [| |done..].
    + change (Z.max mu mp ∈ (UserRow.registered_at <$> u :: users)
                            ++ (PaymentRow.paid_at <$> p :: payments)).
      destruct (Z.max_spec mu mp) as [[_ ->]|[_ ->]];
        apply elem_of_app; [by right | by left].
    + intros t Ht.
      change (t ∈ (UserRow.registered_at <$> u :: users)
                  ++ (PaymentRow.paid_at <$> p :: payments)) in Ht.
      apply elem_of_app in Ht as [Ht|Ht].
      * specialize (Hle_u t Ht). lia.
      * specialize (Hle_p t Ht). lia.
Qed.

Lemma days_before_midnight t k :
  normalize (normalize t - k * NS_PER_DAY) = normalize t - k * NS_PER_DAY.
Proof.
  replace (normalize t - k * NS_PER_DAY)
    with (normalize t + (- k) * NS_PER_DAY) by lia.
  by rewrite normalize_add_days, normalize_idemp.
Qed.

(** Whatever the arguments, a period that [compute_date_range] returns is
    a pair of midnights: the explicit bounds lose their time of day, the
    inferred ones are whole days back from a midnight. *)
Theorem resolved_period_is_midnights users payments sd ed w a b :
  compute_date_range to_datetime users payments sd ed w = Ok (a, b) →
  normalize a = a ∧ normalize b = b.
Proof.
  destruct (decide (is_Some sd ∧ is_Some ed)) as [[[s ->] [e ->]]|Hnot].
  - unfold compute_date_range, parse.
    destruct (to_datetime s), (to_datetime e); try discriminate.
    intros [= <- <-]. split; apply normalize_idemp.
  - intros (latest & _ & _ & -> & ->)%inferred_period_inv; [|done].
    split; [apply days_before_midnight | apply normalize_idemp].
Qed.

(** The report over an inferred period.  No row of either frame is dated
    after the last day [b], and some row is dated on it.  With
    [window_days >= 1] the daily table has exactly [window_days] rows, from
    [a] to [b]; with [window_days <= 0] the period is reversed and the
    report is the empty table with the zero summary. *)
Theorem inferred_period_report users payments sd ed w a b :
  ¬ (is_Some sd ∧ is_Some ed) →
  compute_date_range to_datetime users payments sd ed w = Ok (a, b) →
  (∀ u, u ∈ users → normalize (UserRow.registered_at u) ≤ b) ∧
  (∀ p, p ∈ payments → normalize (PaymentRow.paid_at p) ≤ b) ∧
  ((∃ u, u ∈ users ∧ normalize (UserRow.registered_at u) = b)
   ∨ (∃ p, p ∈ payments ∧ normalize (PaymentRow.paid_at p) = b)) ∧
  (1 ≤ w →
   ∃ daily summary,
     compute_kpis users payments a b = Ok (daily, summary)
     ∧ length (DailyFrame.date daily) = Z.to_nat w
     ∧ head (DailyFrame.date daily) = Some a
     ∧ last (DailyFrame.date daily) = Some b) ∧
  (w ≤ 0 →
   compute_kpis users payments a b
   = Ok (DailyFrame.mk [] [] [] [] [] [] [],
         SummaryKPI.mk a b 0 0 0%float 0%float None)).
Proof.
  intros Hnot Hrun.
  apply inferred_period_inv in Hrun as (latest & Hin & Hmax & Hb' & Ha');
    [|done].
  assert (normalize b = b) as Hb by (rewrite Hb'; apply normalize_idemp).
  assert (normalize a = a) as Ha
    by (rewrite Ha', Hb'; apply days_before_midnight).
  pose proof NS_PER_DAY_pos as Hpos.
  split_and!.
  - intros u Hu. rewrite Hb'. apply normalize_mono, Hmax, elem_of_app.
    left. by apply list_elem_of_fmap_2.
  - intros p Hp. rewrite Hb'. apply normalize_mono, Hmax, elem_of_app.
    right. by apply list_elem_of_fmap_2.
  - apply elem_of_app in Hin as [Hin|Hin];
      apply list_elem_of_fmap in Hin as (r & -> & Hr); [left|right];
      by exists r.
  - intros Hw. eexists _, _. split; [apply compute_kpis_run|]. simpl.
    assert (a ≤ b) by nia.
    assert (days (b - a) + 1 = w) as Hspan.
    { unfold days. replace (b - a) with ((w - 1) * NS_PER_DAY) by lia.
      rewrite Z.div_mul; lia. }
    split_and!.
    + by rewrite length_date_range, Hspan.
    + by apply date_range_head.
    + by apply date_range_last.
  - intros Hw. rewrite compute_kpis_run.
    assert (b < a) by nia.
    rewrite date_range_reversed by done.
    rewrite payments_period_none by (intros; lia).
    reflexivity.
Qed.

End Resolution.

(** ** The dates of the summary dict *)

Section SummaryDates.

Lemma civil_from_days_inv z y m d :
  Python.civil_from_days z = (y, m, d) →
  Iso8601.days_from_civil y m d = z
  ∧ 1 ≤ m ≤ 12 ∧ 1 ≤ d ≤ Iso8601.days_in_month y m
  ∧ (z + 719468) `div` 146097 * 400 ≤ y
    ≤ (z + 719468) `div` 146097 * 400 + 400.
Proof.
  unfold Python.civil_from_days, Iso8601.days_from_civil,
    Iso8601.days_in_month, Iso8601.leap.
  intros [= <- <- <-].
  set (era := (z + 719468) `div` 146097).
  set (doe := z + 719468 - era * 146097).
  assert (0 ≤ doe ≤ 146096) as Hdoe
    by (subst doe era; Z.div_mod_to_equations; lia).
  assert (z = era * 146097 + doe - 719468) as Hz by (subst doe; lia).
  clearbody doe. clearbody era.
  set (yoe := (doe - doe `div` 1460 + doe `div` 36524 - doe `div` 146096)
                `div` 365).
  assert (0 ≤ yoe ≤ 399) as Hyoe
    by (subst yoe; Z.div_mod_to_equations; lia).
  set (doy := doe - (365 * yoe + yoe `div` 4 - yoe `div` 100)).
  assert (0 ≤ doy ≤ 365) as Hdoy
    by (subst doy yoe; Z.div_mod_to_equations; lia).
  assert (doy = 365 →
          (yoe + 1) `mod` 4 = 0
          ∧ ((yoe + 1) `mod` 100 ≠ 0 ∨ (yoe + 1) `mod` 400 = 0)) as Hleap
    by (subst doy yoe; Z.div_mod_to_equations; lia).
  assert (doe = 365 * yoe + yoe `div` 4 - yoe `div` 100 + doy) as Hdoe'
    by (subst doy; lia).
  clearbody doy. clearbody yoe. subst doe z.
  set (mp := (5 * doy + 2) `div` 153).
  assert (0 ≤ mp ≤ 11) as Hmp by (subst mp; Z.div_mod_to_equations; lia).
  assert (153 * mp ≤ 5 * doy + 2 < 153 * mp + 153) as Hmp'
    by (subst mp; Z.div_mod_to_equations; lia).
  clearbody mp.
  assert (mp = 0 ∨ mp = 1 ∨ mp = 2 ∨ mp = 3 ∨ mp = 4 ∨ mp = 5 ∨ mp = 6
          ∨ mp = 7 ∨ mp = 8 ∨ mp = 9 ∨ mp = 10 ∨ mp = 11) as Hcases by lia.
  destruct Hcases
    as [->|[->|[->|[->|[->|[->|[->|[->|[->|[->|[->| ->]]]]]]]]]]];
    repeat case_decide; try case_bool_decide; try lia;
    (split; [Z.div_mod_to_equations; lia|]);
    (split; [lia|]); (split; [Z.div_mod_to_equations; lia|]); lia.
Qed.

End SummaryDates.

(** ** The period filter against the period of the specification *)

Section PeriodFilter.

Context {UserId PaymentId : Type}.
Context `{Countable UserId, Countable PaymentId}.

Implicit Types (users : list (UserRow.t UserId)).
Implicit Types (payments : list (PaymentRow.t UserId PaymentId)).

Lemma midnight_step a b :
  normalize a = a → normalize b = b → a < b → a + NS_PER_DAY ≤ b.
Proof.
  rewrite !normalize_div. intros Ha Hb Hlt. pose proof NS_PER_DAY_pos.
  assert (a `div` NS_PER_DAY < b `div` NS_PER_DAY) by nia. nia.
Qed.

(** Between two midnights, the raw comparison keeps a timestamp exactly
    when its date lies in the period and it is not a later time of the end
    date. *)
Lemma raw_comparison_by_date s e t :
  normalize s = s → normalize e = e →
  s ≤ t ∧ t ≤ e
  ↔ (normalize s ≤ normalize t ∧ normalize t ≤ normalize e)
    ∧ ¬ (normalize t = e ∧ t ≠ e).
Proof.
  intros Hs He. rewrite Hs, He.
  pose proof (normalize_bounds t) as Ht.
  pose proof (normalize_idemp t) as Hnt.
  split.
  - intros [Hst Hte]. split_and!.
    + rewrite <- Hs. by apply normalize_mono.
    + lia.
    + intros [Heq Hne]. lia.
  - intros [[Hst Hte] Hlate].
    split; [lia|].
    destruct (decide (normalize t = e)) as [Heq|Hne].
    + destruct (decide (t = e)) as [->|Hne]; [lia|]. by destruct Hlate.
    + pose proof (midnight_step (normalize t) e Hnt He ltac:(lia)). lia.
Qed.

Lemma filter_ext_in {A} (P Q : A → Prop)
    `{∀ x, Decision (P x), ∀ x, Decision (Q x)} (l : list A) :
  (∀ x, x ∈ l → P x ↔ Q x) → filter P l = filter Q l.
Proof.
  induction l as [|x l IH]; [done|]. intros Hext.
  assert (filter P l = filter Q l) as Hrest
    by (apply IH; intros y Hy; apply Hext; by right).
  destruct (decide (P x)) as [HP|HP].
  - rewrite !filter_cons_True; [by rewrite Hrest|by apply Hext; [left|]|done].
  - rewrite !filter_cons_False; [done| |done].
    intros HQ. apply HP, Hext; [left|done].
Qed.

(** Over a period of two midnights, the payments [compute_kpis] keeps are
    the payments of the period as the specification words it, in order,
    less those paid on the end date at a time other than midnight. *)
Theorem payments_period_drops_end_date payments s e :
  normalize s = s → normalize e = e →
  payments_period payments s e
  = filter (λ p, ¬ (normalize (PaymentRow.paid_at p) = e
                    ∧ PaymentRow.paid_at p ≠ e))
      (payments_in_period payments s e).
Proof.
  intros Hs He. unfold payments_period, payments_in_period.
  rewrite list_filter_filter. apply list_filter_iff. intros p.
  rewrite (raw_comparison_by_date s e _ Hs He). tauto.
Qed.

(** Over a period of two midnights, when every payment made on the end
    date is made at midnight, the paying-user counts are those of the
    specification: [total_paying_users] is the distinct [user_id] count
    across all payments of the period, and the [paying_users] of each row
    is the count among the period's payments of that day. *)
Theorem paying_users_without_late_payments users payments s e :
  normalize s = s → normalize e = e →
  (∀ p, p ∈ payments →
        normalize (PaymentRow.paid_at p) = e → PaymentRow.paid_at p = e) →
  ∃ daily summary,
    compute_kpis users payments s e = Ok (daily, summary) ∧
    SummaryKPI.total_paying_users summary
      = paying_users_in_period payments s e ∧
    ∀ (i : nat) d,
      DailyFrame.date daily !! i = Some d →
      DailyFrame.paying_users daily !! i
        = Some (paying_users_on_day payments s e d).
Proof.
  intros Hs He Hmidnight.
  assert (payments_period payments s e = payments_in_period payments s e)
    as Hsame.
  { apply filter_ext_in. intros p Hp.
    rewrite (raw_comparison_by_date s e _ Hs He).
    split; [tauto|]. intros Hin. split; [done|].
    intros [Heq Hne]. by apply Hne, Hmidnight. }
  eexists _, _. split; [apply compute_kpis_run|]. simpl.
  unfold paying_users_in_period, paying_users_on_day. rewrite <- Hsame.
  split; [done|].
  intros i d Hd. by rewrite list_lookup_fmap, Hd.
Qed.

End PeriodFilter.

(** ** The dates of the summary dict, read back *)

Section ReadBack.

Lemma list_ascii_of_string_app s1 s2 :
  list_ascii_of_string (s1 +:+ s2)
  = list_ascii_of_string s1 ++ list_ascii_of_string s2.
Proof. induction s1 as [|a s1 IH]; [done|]. simpl. by rewrite IH. Qed.

(** The zero-padded decimal of a year, a month or a day has the width asked
    for and reads back as the number. *)
Lemma zfill_reads_back_table :
  forallb (λ n, bool_decide
     (length (list_ascii_of_string (Python.zfill 4 n)) = 4%nat
      ∧ Iso8601.number 0 (list_ascii_of_string (Python.zfill 4 n)) = Some n))
    (seqZ 1600 801)
  && forallb (λ n, bool_decide
       (length (list_ascii_of_string (Python.zfill 2 n)) = 2%nat
        ∧ Iso8601.number 0 (list_ascii_of_string (Python.zfill 2 n)) = Some n))
      (seqZ 1 31)
  = true.
Proof. vm_compute. reflexivity. Qed.

Lemma zfill_year y :
  1600 ≤ y ≤ 2400 →
  length (list_ascii_of_string (Python.zfill 4 y)) = 4%nat
  ∧ Iso8601.number 0 (list_ascii_of_string (Python.zfill 4 y)) = Some y.
Proof.
  intros Hy. pose proof zfill_reads_back_table as Ht.
  apply andb_prop in Ht as [Ht _].
  rewrite forallb_forall in Ht.
  assert (In y (seqZ 1600 801)) as Hin
    by (apply list_elem_of_In, elem_of_seqZ; lia).
  apply Ht in Hin. by apply bool_decide_eq_true in Hin.
Qed.

Lemma zfill_month_day n :
  1 ≤ n ≤ 31 →
  length (list_ascii_of_string (Python.zfill 2 n)) = 2%nat
  ∧ Iso8601.number 0 (list_ascii_of_string (Python.zfill 2 n)) = Some n.
Proof.
  intros Hn. pose proof zfill_reads_back_table as Ht.
  apply andb_prop in Ht as [_ Ht].
  rewrite forallb_forall in Ht.
  assert (In n (seqZ 1 31)) as Hin
    by (apply list_elem_of_In, elem_of_seqZ; lia).
  apply Ht in Hin. by apply bool_decide_eq_true in Hin.
Qed.

Lemma days_in_month_le y m : Iso8601.days_in_month y m ≤ 31.
Proof.
  unfold Iso8601.days_in_month. repeat case_decide; try destruct (Iso8601.leap y); lia.
Qed.

Lemma iso_date_round_trip t :
  Timestamp_min ≤ t ≤ Timestamp_max →
  Iso8601.to_datetime (Python.date_isoformat (Timestamp_date t))
  = Some (normalize t).
Proof.
  intros Ht. unfold Timestamp_date.
  set (z := t `div` NS_PER_DAY).
  assert (-106752 ≤ z ≤ 106751) as Hz.
  { subst z. unfold Timestamp_min, Timestamp_max, NS_PER_DAY in *.
    Z.div_mod_to_equations. lia. }
  rewrite normalize_div. fold z. clearbody z.
  destruct (Python.civil_from_days z) as [[y m] d] eqn:Hcivil.
  apply civil_from_days_inv in Hcivil as (Hdays & Hm & Hd & Hy).
  pose proof (days_in_month_le y m) as Hdim.
  assert (1600 ≤ y ≤ 2400) as Hy' by (Z.div_mod_to_equations; lia).
  destruct (zfill_year y Hy') as [Hly Hny].
  destruct (zfill_month_day m ltac:(lia)) as [Hlm Hnm].
  destruct (zfill_month_day d ltac:(lia)) as [Hld Hnd].
  unfold Python.date_isoformat, Iso8601.to_datetime.
  rewrite !list_ascii_of_string_app.
  destruct (list_ascii_of_string (Python.zfill 4 y))
    as [|y1 [|y2 [|y3 [|y4 [|]]]]]; try discriminate.
  destruct (list_ascii_of_string (Python.zfill 2 m))
    as [|m1 [|m2 [|]]]; try discriminate.
  destruct (list_ascii_of_string (Python.zfill 2 d))
    as [|d1 [|d2 [|]]]; try discriminate.
  cbn [app list_ascii_of_string].
  rewrite decide_True by done.
  rewrite Hny. cbn [mbind option_bind]. rewrite Hnm. cbn [mbind option_bind].
  rewrite Hnd. cbn [mbind option_bind Iso8601.time_of_day].
  rewrite decide_True by lia. f_equal. lia.
Qed.

(** Within the timestamps pandas represents, the [start_date] and
    [end_date] strings of [summary_to_dict] name the calendar day and
    nothing else: two summaries carry the same string exactly when their
    bounds fall on the same day. *)
Theorem summary_dates_identify_days (s1 s2 : SummaryKPI.t) :
  Timestamp_min ≤ SummaryKPI.start_date s1 ≤ Timestamp_max →
  Timestamp_min ≤ SummaryKPI.start_date s2 ≤ Timestamp_max →
  Timestamp_min ≤ SummaryKPI.end_date s1 ≤ Timestamp_max →
  Timestamp_min ≤ SummaryKPI.end_date s2 ≤ Timestamp_max →
  (SummaryDict.start_date (summary_to_dict s1)
   = SummaryDict.start_date (summary_to_dict s2)
   ↔ normalize (SummaryKPI.start_date s1)
     = normalize (SummaryKPI.start_date s2)) ∧
  (SummaryDict.end_date (summary_to_dict s1)
   = SummaryDict.end_date (summary_to_dict s2)
   ↔ normalize (SummaryKPI.end_date s1) = normalize (SummaryKPI.end_date s2)).
Proof.
  intros H1 H2 H3 H4.
  assert (∀ t t', Timestamp_min ≤ t ≤ Timestamp_max →
                  Timestamp_min ≤ t' ≤ Timestamp_max →
                  Python.date_isoformat (Timestamp_date t)
                  = Python.date_isoformat (Timestamp_date t')
                  ↔ normalize t = normalize t') as Hiff.
  { intros t t' Ht Ht'. split.
    - intros Heq. apply (f_equal Iso8601.to_datetime) in Heq.
      rewrite !iso_date_round_trip in Heq by done. congruence.
    - intros Heq. unfold Timestamp_date. rewrite !normalize_div in Heq.
      pose proof NS_PER_DAY_pos.
      assert (t `div` NS_PER_DAY = t' `div` NS_PER_DAY) as -> by nia.
      done. }
  split; by apply Hiff.
Qed.

(** The period of a report, read back.  Passed as explicit bounds to
    [compute_date_range] under a parser of ISO-8601 dates (the format
    main.py asks for), the two date strings of the summary dict give the
    period of the summary again, at midnight, whatever the frames. *)
Theorem summary_period_reads_back {UserId PaymentId}
    (users : list (UserRow.t UserId))
    (payments : list (PaymentRow.t UserId PaymentId))
    (summary : SummaryKPI.t) (w : Z) :
  Timestamp_min ≤ SummaryKPI.start_date summary ≤ Timestamp_max →
  Timestamp_min ≤ SummaryKPI.end_date summary ≤ Timestamp_max →
  compute_date_range Iso8601.to_datetime users payments
    (Some (SummaryDict.start_date (summary_to_dict summary)))
    (Some (SummaryDict.end_date (summary_to_dict summary))) w
  = Ok (normalize (SummaryKPI.start_date summary),
        normalize (SummaryKPI.end_date summary)).
Proof.
  intros Hs He. unfold compute_date_range, parse, summary_to_dict.
  cbn [SummaryDict.start_date SummaryDict.end_date].
  rewrite !iso_date_round_trip by done. cbn.
  by rewrite !normalize_idemp.
Qed.

End ReadBack.

(** ** The report of a period without rows, and its digest *)

Section Digest.

Context {UserId PaymentId : Type}.
Context `{Countable UserId, Countable PaymentId}.

Implicit Types (users : list (UserRow.t UserId)).
Implicit Types (payments : list (PaymentRow.t UserId PaymentId)).

Lemma fmap_const_replicate {A B} (c : B) (l : list A) :
  (λ _, c) <$> l = replicate (length l) c.
Proof. induction l as [|x l IH]; [done|]. csimpl. by rewrite IH. Qed.

Lemma sum_list_zeros n : sum_list (replicate n 0%nat) = 0%nat.
Proof. induction n as [|n IH]; [done|]. exact IH. Qed.

Lemma sum_float_zeros n : Pandas.sum (replicate n 0%float) = 0%float.
Proof.
  unfold Pandas.sum.
  assert (dropna (replicate n 0%float) = replicate n 0%float) as ->.
  { induction n as [|n IH]; [done|]. unfold dropna in *. simpl.
    by rewrite IH. }
  induction n as [|n IH]; [done|]. exact IH.
Qed.


(** The report when the period filter keeps no row of either frame, which
    covers two empty frames: every column is zero on each day of the
    period, the totals are zero and the average check is [None]. *)
Theorem compute_kpis_nothing_kept users payments s e :
  users_period users s e = [] →
  payments_period payments s e = [] →
  let n := Z.to_nat (days (e - s) + 1) in
  compute_kpis users payments s e
  = Ok (DailyFrame.mk (date_range s e)
          (replicate n 0%nat) (replicate n 0%nat) (replicate n 0%nat)
          (replicate n 0%float) (replicate n 0%float) (replicate n 0%float),
        SummaryKPI.mk s e 0 0 0%float 0%float None).
Proof.
  intros Hu Hp n. rewrite compute_kpis_run, Hu, Hp. cbn.
  rewrite !fmap_const_replicate, length_date_range. fold n.
  by rewrite sum_list_zeros, sum_float_zeros.
Qed.

Lemma nothing_kept_summary users payments s e daily summary :
  users_period users s e = [] →
  payments_period payments s e = [] →
  compute_kpis users payments s e = Ok (daily, summary) →
  summary = SummaryKPI.mk s e 0 0 0%float 0%float None.
Proof.
  intros Hu Hp. rewrite compute_kpis_run, Hu, Hp. cbn.
  rewrite !fmap_const_replicate, sum_list_zeros, sum_float_zeros.
  by intros [= _ <-].
Qed.

(** The digest of such a report is six lines: the title, the period, a
    blank line, zero new users, zero paying users and a revenue of 0.00; it
    has neither the conversion line nor the average-check line. *)
Theorem digest_of_period_without_rows users payments s e daily summary :
  users_period users s e = [] →
  payments_period payments s e = [] →
  compute_kpis users payments s e = Ok (daily, summary) →
  format_summary_for_message (summary_to_dict summary)
  = Python.join Python.newline
      [ "📊 <b>Weekly KPI Report</b>";
        Python.date_isoformat (Timestamp_date s) +:+ " — "
        +:+ Python.date_isoformat (Timestamp_date e);
        "";
        "👥 Новых пользователей: <b>" +:+ "0" +:+ "</b>";
        "💳 Оплативших пользователей: <b>" +:+ "0" +:+ "</b>";
        "💰 Выручка: <b>" +:+ "0.00" +:+ "</b>" ].
Proof.
  intros Hu Hp Hrun.
  rewrite (nothing_kept_summary _ _ _ _ _ _ Hu Hp Hrun).
  reflexivity.
Qed.



End Digest.

(** ** The notifier *)

Section Notifier.

Context {UserId PaymentId : Type}.

Variable respond :
  list (IO.event (@Workbook UserId PaymentId)) → IO.request → IO.response.
Variable read_file : string → option string.
Variable path_name : string → string.

Local Abbreviation send := (send_telegram_message respond read_file path_name).

Local Abbreviation text_request token chat_id text :=
  (IO.mk_request (("https://api.telegram.org/bot" +:+ token) +:+ "/sendMessage")
     [("chat_id", chat_id); ("text", text); ("parse_mode", "HTML")] [] 15).

Local Abbreviation document_request token chat_id path content :=
  (IO.mk_request
     (("https://api.telegram.org/bot" +:+ token) +:+ "/sendDocument")
     [("chat_id", chat_id)] [("document", (path_name path, content))] 30).

(** A status that [raise_for_status] lets through. *)
Local Abbreviation accepted code := (¬ (400 ≤ code < 600)).

(** What a call of [send_telegram_message] does, case by case. *)
Lemma send_telegram_message_cases token chat_id text file_path tr :
  let msg := text_request token chat_id text in
  send token chat_id text file_path tr =
    if decide (token = "" ∨ chat_id = "")
    then (IO.Raised IO.MissingCredentials, tr)
    else
      match respond tr msg with
      | IO.NoResponse => (IO.Raised IO.RequestException, tr ++ [IO.Post msg])
      | IO.Status c =>
          if decide (400 ≤ c < 600)
          then (IO.Raised (IO.HTTPError c), tr ++ [IO.Post msg])
          else
            match file_path with
            | None => (IO.Return tt, tr ++ [IO.Post msg])
            | Some p =>
                match read_file p with
                | None => (IO.Raised IO.OSError, tr ++ [IO.Post msg])
                | Some f =>
                    let doc := document_request token chat_id p f in
                    match respond (tr ++ [IO.Post msg]) doc with
                    | IO.NoResponse =>
                        (IO.Raised IO.RequestException,
                         (tr ++ [IO.Post msg]) ++ [IO.Post doc])
                    | IO.Status c' =>
                        if decide (400 ≤ c' < 600)
                        then (IO.Raised (IO.HTTPError c'),
                              (tr ++ [IO.Post msg]) ++ [IO.Post doc])
                        else (IO.Return tt,
                              (tr ++ [IO.Post msg]) ++ [IO.Post doc])
                    end
                end
            end
      end.
Proof.
  intros msg. unfold send_telegram_message.
  destruct (decide (token = "" ∨ chat_id = "")); [done|].
  unfold IO.bind, post. fold msg.
  destruct (respond tr msg) as [c|]; [|done].
  unfold raise_for_status.
  destruct (decide (400 ≤ c < 600)); [done|]. cbn.
  destruct file_path as [p|]; [|done].
  destruct (read_file p) as [f|]; [|done].
  destruct (respond _ _) as [c'|]; [|done].
  by destruct (decide (400 ≤ c' < 600)).
Qed.

(** The requests of a call, in order, are at most the text message and
    then the document.  Without a token or a chat nothing is posted and the
    call raises.  The document is posted only after the text message was
    answered with a status below 400 (or from 600), and only when a file
    was given and could be read. *)
Theorem send_telegram_message_requests token chat_id text file_path tr out tr' :
  send token chat_id text file_path tr = (out, tr') →
  let msg := text_request token chat_id text in
  (tr' = tr ∧ (token = "" ∨ chat_id = "")
   ∧ out = IO.Raised IO.MissingCredentials)
  ∨ (tr' = tr ++ [IO.Post msg] ∧ token ≠ "" ∧ chat_id ≠ "")
  ∨ (∃ p f c,
       tr' = tr ++ [IO.Post msg; IO.Post (document_request token chat_id p f)]
       ∧ token ≠ "" ∧ chat_id ≠ ""
       ∧ file_path = Some p ∧ read_file p = Some f
       ∧ respond tr msg = IO.Status c ∧ accepted c).
Proof.
  rewrite send_telegram_message_cases. cbv zeta.
  destruct (decide (token = "" ∨ chat_id = "")) as [Hno|Hyes].
  { intros [= <- <-]. by left. }
  assert (token ≠ "" ∧ chat_id ≠ "") as [Ht Hc]
    by (split; intros ->; apply Hyes; auto).
  destruct (respond tr _) as [c|] eqn:Hresp;
    [|intros [= <- <-]; right; by left].
  destruct (decide (400 ≤ c < 600));
    [intros [= <- <-]; right; by left|].
  destruct file_path as [p|]; [|intros [= <- <-]; right; by left].
  destruct (read_file p) as [f|] eqn:Hread;
    [|intros [= <- <-]; right; by left].
  intros Heq. right. right. exists p, f, c.
  assert (tr' = tr ++ [IO.Post (text_request token chat_id text);
                       IO.Post (document_request token chat_id p f)]) as ->.
  { rewrite <- app_assoc in Heq.
    destruct (respond (tr ++ _) _) as [c'|]; [|by injection Heq as _ <-].
    destruct (decide (400 ≤ c' < 600)); by injection Heq as _ <-. }
  by split_and!.
Qed.

(** The call returns normally exactly when the credentials are there, the
    text message was answered with an accepted status, and either no file
    was given or the file could be read and the document was answered with
    an accepted status too. *)
Theorem send_telegram_message_returns token chat_id text file_path tr :
  let msg := text_request token chat_id text in
  (send token chat_id text file_path tr).1 = IO.Return tt
  ↔ token ≠ "" ∧ chat_id ≠ ""
    ∧ (∃ c, respond tr msg = IO.Status c ∧ accepted c)
    ∧ (file_path = None
       ∨ ∃ p f c',
           file_path = Some p ∧ read_file p = Some f
           ∧ respond (tr ++ [IO.Post msg])
               (document_request token chat_id p f) = IO.Status c'
           ∧ accepted c').
Proof.
  rewrite send_telegram_message_cases. cbv zeta.
  destruct (decide (token = "" ∨ chat_id = "")) as [Hno|Hyes].
  { split; [done|]. intros (Ht & Hc & _). by destruct Hno. }
  assert (token ≠ "" ∧ chat_id ≠ "") as [Ht Hc]
    by (split; intros ->; apply Hyes; auto).
  destruct (respond tr _) as [c|] eqn:Hresp.
  2: { split; [done|]. by intros (_ & _ & (c & [=] & _) & _). }
  destruct (decide (400 ≤ c < 600)) as [Hbad|Hok].
  { split; [done|]. by intros (_ & _ & (c0 & [= <-] & ?) & _). }
  destruct file_path as [p|].
  2: { split; [|done]. intros _. split_and!; [done..| |by left].
       by exists c. }
  destruct (read_file p) as [f|] eqn:Hread.
  2: { split; [done|].
       intros (_ & _ & _ & [[=]|(p0 & f0 & c' & [= <-] & Hr & _)]).
       congruence. }
  destruct (respond (tr ++ _) _) as [c'|] eqn:Hresp'.
  2: { split; [done|].
       intros (_ & _ & _ & [[=]|(p0 & f0 & c' & [= <-] & Hr & Hr' & _)]).
       congruence. }
  destruct (decide (400 ≤ c' < 600)) as [Hbad'|Hok'].
  { split; [done|].
    intros (_ & _ & _ & [[=]|(p0 & f0 & c0 & [= <-] & Hr & Hr' & Hacc)]).
    rewrite Hread in Hr. injection Hr as <-. rewrite Hresp' in Hr'.
    injection Hr' as <-. done. }
  split; [|done]. intros _. split_and!; [done..| |].
  - by exists c.
  - right. by exists p, f, c'.
Qed.

End Notifier.

(** ** main *)

Section Main.

Context {UserId PaymentId : Type}.
Context `{Countable UserId, Countable PaymentId}.

Variable respond :
  list (IO.event (@Workbook UserId PaymentId)) → IO.request → IO.response.
Variable can_mkdir can_write : string → bool.
Variable read_file : string → option string.
Variable load_all :
  string → string →
  option (list (UserRow.t UserId) * list (PaymentRow.t UserId PaymentId)).
Variable to_datetime : string → option Z.
Variable path_parent path_name path_str : string → string.

Implicit Types (users : list (UserRow.t UserId)).
Implicit Types (payments : list (PaymentRow.t UserId PaymentId)).
Implicit Types (tr : list (IO.event (@Workbook UserId PaymentId))).

Local Abbreviation notify :=
  (main_notify respond read_file path_name).
Local Abbreviation report :=
  (main_report respond can_mkdir can_write read_file to_datetime
     path_parent path_name path_str).
Local Abbreviation run :=
  (main respond can_mkdir can_write read_file load_all to_datetime
     path_parent path_name path_str).

(** The ways [main] ends: it returns, or lets through an exception of the
    loader, of the date parser, of the file system or of the HTTP calls. *)
Local Abbreviation expected out :=
  (out = IO.Return tt
   ∨ out = IO.Raised IO.LoadError
   ∨ out = IO.Raised (IO.Core DateParseError)
   ∨ out = IO.Raised IO.OSError
   ∨ out = IO.Raised IO.RequestException
   ∨ ∃ code, 400 ≤ code < 600 ∧ out = IO.Raised (IO.HTTPError code)).

(** The exceptions of step 5. *)
Local Abbreviation failed out :=
  (out = IO.Raised IO.OSError
   ∨ out = IO.Raised IO.RequestException
   ∨ ∃ code, 400 ≤ code < 600 ∧ out = IO.Raised (IO.HTTPError code)).

(** The switches of step 5. *)
Local Abbreviation sending config args :=
  (Args.no_telegram args = false
   ∧ Config.ENABLE_TELEGRAM config = true
   ∧ Config.TELEGRAM_BOT_TOKEN config ≠ ""
   ∧ Config.TELEGRAM_CHAT_ID config ≠ "").

(** The two requests of step 5. *)
Local Abbreviation digest_request config summary_dict :=
  (IO.mk_request
     (("https://api.telegram.org/bot" +:+ Config.TELEGRAM_BOT_TOKEN config)
      +:+ "/sendMessage")
     [("chat_id", Config.TELEGRAM_CHAT_ID config);
      ("text", format_summary_for_message summary_dict);
      ("parse_mode", "HTML")] [] 15).

Local Abbreviation report_request config path content :=
  (IO.mk_request
     (("https://api.telegram.org/bot" +:+ Config.TELEGRAM_BOT_TOKEN config)
      +:+ "/sendDocument")
     [("chat_id", Config.TELEGRAM_CHAT_ID config)]
     [("document", (path_name path, content))] 30).

(** What step 5 posts and how it ends. *)
Local Abbreviation notified config args summary_dict report_path out posts :=
  ((posts = [] ∧ out = IO.Return tt ∧ ¬ sending config args)
   ∨ (sending config args
      ∧ posts = [digest_request config summary_dict] ∧ failed out)
   ∨ (sending config args
      ∧ ∃ content,
          read_file report_path = Some content
          ∧ posts = [digest_request config summary_dict;
                     report_request config report_path content]
          ∧ (out = IO.Return tt ∨ failed out))).

Lemma compute_date_range_raises users payments sd ed w e :
  compute_date_range to_datetime users payments sd ed w = Raise e →
  (e = DateParseError ∧ is_Some sd ∧ is_Some ed)
  ∨ (e = NoDataError ∧ users = [] ∧ payments = []).
Proof.
  unfold compute_date_range, parse.
  destruct sd as [s|], ed as [e'|];
    try (destruct users, payments; simpl; intros [= <-]; by right).
  intros Hrun. left. split_and!; [|by eexists..].
  destruct (to_datetime s); [|by injection Hrun as <-].
  destruct (to_datetime e'); [discriminate|by injection Hrun as <-].
Qed.

Lemma outside_print tr text : outside (tr ++ [IO.Print text]) = outside tr.
Proof. unfold outside. rewrite List.filter_app. apply app_nil_r. Qed.

Lemma outside_event tr ev :
  (∀ text, ev ≠ IO.Print text) → outside (tr ++ [ev]) = outside tr ++ [ev].
Proof.
  intros Hev. unfold outside. rewrite List.filter_app. f_equal.
  destruct ev; try done. by destruct (Hev text).
Qed.

Lemma elem_of_outside tr ev :
  (∀ text, ev ≠ IO.Print text) → ev ∈ tr ↔ ev ∈ outside tr.
Proof.
  intros Hev. unfold outside. rewrite !list_elem_of_In, List.filter_In.
  split; [|tauto]. intros Hin. split; [done|].
  destruct ev; try done. by destruct (Hev text).
Qed.

(** Step 5, whatever the outside answers. *)
Lemma main_notify_effects config args summary_dict report_path tr0 out tr :
  notify config args summary_dict report_path tr0 = (out, tr) →
  ∃ posts,
    outside tr = outside tr0 ++ (IO.Post <$> posts)
    ∧ notified config args summary_dict report_path out posts.
Proof.
  unfold main_notify.
  assert (¬ sending config args →
          ∀ text,
    (out, tr) = (IO.Return tt, tr0)
    ∨ (out, tr) = (IO.Return tt, tr0 ++ [IO.Print text]) →
    ∃ posts,
      outside tr = outside tr0 ++ (IO.Post <$> posts)
      ∧ notified config args summary_dict report_path out posts)
    as Hquiet.
  { intros Hoff text [[= -> ->]|[= -> ->]]; exists [];
      rewrite ?outside_print, app_nil_r; (split; [done|]); by left. }
  destruct (Args.no_telegram args) eqn:Hno.
  { intros [= <- <-]. apply (Hquiet ltac:(by intros [? _]) ""). by left. }
  destruct (Config.ENABLE_TELEGRAM config) eqn:Hon.
  2: { intros [= <- <-].
       apply (Hquiet ltac:(by intros (_ & ? & _)) ""). by left. }
  cbn [negb andb].
  destruct (decide (Config.TELEGRAM_BOT_TOKEN config = ""
                    ∨ Config.TELEGRAM_CHAT_ID config = "")) as [Hmiss|Hcred].
  { intros [= <- <-]. eapply Hquiet; [|by right].
    intros (_ & _ & ? & ?). by destruct Hmiss. }
  clear Hquiet.
  assert (Config.TELEGRAM_BOT_TOKEN config ≠ ""
          ∧ Config.TELEGRAM_CHAT_ID config ≠ "") as [Ht Hc]
    by (split; intros Heq; apply Hcred; auto).
  unfold IO.bind, IO.print, IO.emit.
  rewrite send_telegram_message_cases. cbv zeta.
  rewrite decide_False by done.
  remember (format_summary_for_message summary_dict) as text eqn:Htext.
  repeat case_match; intros ?; simplify_eq;
    first
      [ eexists [_]; split;
        [repeat (rewrite outside_print || rewrite outside_event by done);
         reflexivity|];
        right; left; split_and!; [done..|reflexivity|eauto 10]
      | eexists [_; _]; split;
        [repeat (rewrite outside_print || rewrite outside_event by done);
         rewrite <- app_assoc; reflexivity|];
        right; right; split; [done|]; eexists;
        split_and!; [reflexivity..|eauto 10] ].
Qed.

(** Steps 2 to 5, on frames that are not both empty. *)
Lemma main_report_effects config args users payments tr0 out tr :
  ¬ (users = [] ∧ payments = []) →
  report config args users payments tr0 = (out, tr) →
  (out = IO.Raised (IO.Core DateParseError)
   ∧ is_Some (Args.start_date args) ∧ is_Some (Args.end_date args)
   ∧ outside tr = outside tr0)
  ∨ (out = IO.Raised IO.OSError
     ∧ (outside tr = outside tr0
        ∨ outside tr
          = outside tr0 ++ [IO.MakeDirs (path_parent (Args.output args))]))
  ∨ ∃ a b daily summary posts,
      compute_date_range to_datetime users payments
        (Args.start_date args) (Args.end_date args) 7 = Ok (a, b)
      ∧ compute_kpis users payments a b = Ok (daily, summary)
      ∧ outside tr
        = outside tr0
          ++ IO.MakeDirs (path_parent (Args.output args))
             :: IO.WriteExcel (Args.output args)
                  (mk_workbook users payments daily
                     (SummaryDict.items (summary_to_dict summary)))
             :: (IO.Post <$> posts)
      ∧ notified config args (summary_to_dict summary) (Args.output args)
          out posts.
Proof.
  intros Hdata.
  unfold main_report, build_excel_report, IO.bind, IO.lift, IO.print,
    IO.emit, IO.ret, IO.raise.
  destruct (compute_date_range _ _ _ _ _ _) as [[a b]|e] eqn:Hcdr.
  2: { intros [= <- <-].
       apply compute_date_range_raises in Hcdr as [(-> & ? & ?)|(-> & ? & ?)];
         [|tauto].
       by left. }
  destruct (compute_kpis users payments a b) as [[daily summary]|e] eqn:Hk;
    [|rewrite compute_kpis_run in Hk; discriminate].
  destruct (decide (0 < SummaryKPI.total_new_users summary)%nat),
    (SummaryKPI.avg_check summary),
    (can_mkdir (path_parent (Args.output args))),
    (can_write (Args.output args)).
  all: repeat
    match goal with
    | |- context [IO.Print ?s] =>
        tryif is_var s then fail else (generalize s; intros ?)
    end.
  all: try (intros [= <- <-]; right; left; split; [done|];
            rewrite ?outside_print; auto; fail).
  all: try (intros [= <- <-]; right; left; split; [done|];
            rewrite outside_event, ?outside_print by done; auto; fail).
  all: intros Hn;
    apply main_notify_effects in Hn as (posts & Hout & Hposts);
    right; right; exists a, b, daily, summary, posts;
    (split_and!; [reflexivity|exact Hk| |done]);
    rewrite Hout, outside_print, !outside_event, ?outside_print by done;
    rewrite <- !app_assoc; reflexivity.
Qed.


Lemma main_effects config args tr0 out tr :
  run config args tr0 = (out, tr) →
  (out = IO.Raised IO.LoadError ∧ outside tr = outside tr0
   ∧ load_all (Args.users_csv args) (Args.payments_csv args) = None)
  ∨ (out = IO.Return tt ∧ outside tr = outside tr0
     ∧ load_all (Args.users_csv args) (Args.payments_csv args)
       = Some ([], []))
  ∨ ∃ users payments tr1,
      load_all (Args.users_csv args) (Args.payments_csv args)
      = Some (users, payments)
      ∧ ¬ (users = [] ∧ payments = [])
      ∧ outside tr1 = outside tr0
      ∧ report config args users payments tr1 = (out, tr).
Proof.
  unfold main, IO.bind, IO.print, IO.emit, IO.ret, IO.raise.
  destruct (load_all _ _) as [[users payments]|]; cbv beta iota.
  2: { intros [= <- <-]. left. by rewrite !outside_print. }
  destruct users as [|u users], payments as [|p payments].
  { intros [= <- <-]. right; left. by rewrite !outside_print. }
  all: intros Hrep; right; right; eexists _, _, _;
    (split; [reflexivity|]); (split; [by intros [? ?]|]);
    refine (conj _ Hrep); by rewrite !outside_print.
Qed.


(** What [main] does to the outside, in order: it makes the directory of
    the report, writes the workbook, then posts.  The workbook holds the
    loaded frames, the daily table and the summary that [compute_kpis]
    returns for the period that [compute_date_range] resolved.  Nothing is
    posted unless [--no-telegram] is absent, [ENABLE_TELEGRAM] is set and
    both credentials are non-empty; then the first post is the digest of
    the very summary that went into the workbook, and the second, if any,
    the content read back from the report path.  With sending switched on
    [main] only returns normally after both posts. *)
Theorem main_outside_effects config args tr0 out tr :
  run config args tr0 = (out, tr) →
  outside tr = outside tr0
  ∨ outside tr = outside tr0 ++ [IO.MakeDirs (path_parent (Args.output args))]
  ∨ ∃ users payments a b daily summary posts,
      load_all (Args.users_csv args) (Args.payments_csv args)
      = Some (users, payments)
      ∧ ¬ (users = [] ∧ payments = [])
      ∧ compute_date_range to_datetime users payments
          (Args.start_date args) (Args.end_date args) 7 = Ok (a, b)
      ∧ compute_kpis users payments a b = Ok (daily, summary)
      ∧ outside tr
        = outside tr0
          ++ IO.MakeDirs (path_parent (Args.output args))
             :: IO.WriteExcel (Args.output args)
                  (mk_workbook users payments daily
                     (SummaryDict.items (summary_to_dict summary)))
             :: (IO.Post <$> posts)
      ∧ notified config args (summary_to_dict summary) (Args.output args)
          out posts.
Proof.
  intros [(_ & ? & _)|[(_ & ? & _)|(users & payments & tr1 & Hload & Hdata
                                    & Htr1 & Hrep)]]%main_effects;
    [by left..|].
  apply main_report_effects in Hrep
    as [(_ & _ & _ & Htr)|[(_ & [Htr|Htr])|(a & b & daily & summary & posts
                                            & Hcdr & Hk & Htr & Hn)]];
    [| | | |done]; rewrite Htr1 in Htr.
  - by left.
  - by left.
  - right. by left.
  - right. right. by exists users, payments, a, b, daily, summary, posts.
Qed.

(** The report of a default run: when [--start-date] and [--end-date] are
    not both given, a workbook that [main] writes goes to [--output], its
    raw sheets are the loaded frames, its daily sheet has exactly seven
    rows, the last one for the day of the latest record of the two frames,
    and its summary sheet has the seven metrics in the order of
    [summary_to_dict]. *)
Theorem main_default_report config args out tr path workbook :
  ¬ (is_Some (Args.start_date args) ∧ is_Some (Args.end_date args)) →
  run config args [] = (out, tr) →
  IO.WriteExcel path workbook ∈ tr →
  path = Args.output args
  ∧ load_all (Args.users_csv args) (Args.payments_csv args)
    = Some (raw_users workbook, raw_payments workbook)
  ∧ length (DailyFrame.date (daily_kpi workbook)) = 7%nat
  ∧ (∃ latest,
       latest ∈ (UserRow.registered_at <$> raw_users workbook)
                ++ (PaymentRow.paid_at <$> raw_payments workbook)
       ∧ (∀ t, t ∈ (UserRow.registered_at <$> raw_users workbook)
                   ++ (PaymentRow.paid_at <$> raw_payments workbook) →
               t ≤ latest)
       ∧ last (DailyFrame.date (daily_kpi workbook)) = Some (normalize latest))
  ∧ (summary workbook).*1
    = ["start_date"; "end_date"; "total_new_users"; "total_paying_users";
       "total_revenue"; "conversion"; "avg_check"].
Proof.
  intros Hnot Hrun Hin.
  apply elem_of_outside in Hin; [|done].
  apply main_effects in Hrun
    as [(_ & Htr & _)|[(_ & Htr & _)|(users & payments & tr1 & Hload & Hdata
                                      & Htr1 & Hrep)]];
    [rewrite Htr in Hin; by apply elem_of_nil in Hin..|].
  apply main_report_effects in Hrep
    as [(_ & _ & _ & Htr)|[(_ & [Htr|Htr])|(a & b & daily & totals & posts
                                            & Hcdr & Hk & Htr & _)]];
    [| | | |done]; rewrite Htr, Htr1 in Hin; cbn in Hin.
  - by apply elem_of_nil in Hin.
  - by apply elem_of_nil in Hin.
  - apply list_elem_of_singleton in Hin. discriminate.
  - apply elem_of_cons in Hin as [[=]|Hin].
    apply elem_of_cons in Hin as [[= -> ->]|Hin].
    2: { apply list_elem_of_fmap in Hin as (r & [=] & _). }
    cbn [raw_users raw_payments daily_kpi summary].
    apply inferred_period_inv in Hcdr as (latest & Hlatest & Hmax & -> & ->);
      [|done].
    revert Hk. rewrite compute_kpis_run. intros [= <- <-].
    cbn [DailyFrame.date].
    pose proof NS_PER_DAY_pos as Hpos.
    split_and!; [done..| | |done].
    + rewrite length_date_range. unfold days.
      replace (normalize latest - (normalize latest - (7 - 1) * NS_PER_DAY))
        with (6 * NS_PER_DAY) by lia.
      by rewrite Z.div_mul by lia.
    + exists latest. split_and!; [done..|].
      apply date_range_last;
        [apply days_before_midnight|apply normalize_idemp|lia].
Qed.

End Main.

(** ** Further runs on the sample frames *)

Section SampleRuns.

Import Sample.

(** The sample week asked for from 09:00 of its first day. *)
Lemma sample_week_from_nine :
  ∃ daily summary,
    compute_kpis users_week payments_week (mar 10 9 0) (mar 16 0 0)
      = Ok (daily, summary)
    ∧ SummaryKPI.total_new_users summary = 0%nat
    ∧ SummaryKPI.total_revenue summary = 0%float
    ∧ SummaryKPI.total_paying_users summary = 1%nat.
Proof.
  destruct (compute_kpis_start_off_midnight users_week payments_week
              (mar 10 9 0) (mar 16 0 0))
    as (daily & summary & Hrun & _ & _ & _ & _ & _ & _ & Hn & Hr & _ & Hp & _);
    [by vm_compute|].
  exists daily, summary. refine (conj Hrun (conj Hn (conj Hr _))).
  rewrite Hp. by vm_compute.
Defined.

(** The sample week: one payment is kept, and counted once. *)
Lemma sample_week_payments_count :
  ∃ daily summary,
    compute_kpis users_week payments_week (mar 10 0 0) (mar 16 0 0)
      = Ok (daily, summary)
    ∧ sum_list (DailyFrame.payments_count daily) = 1%nat.
Proof.
  destruct (payments_count_sums_to_kept_payments users_week payments_week
              (mar 10 0 0) (mar 16 0 0))
    as (daily & summary & Hrun & Hsum).
  - by vm_compute.
  - apply (bool_decide_unpack _). by vm_compute.
  - exists daily, summary. split; [exact Hrun|]. rewrite Hsum. by vm_compute.
Defined.

(** One user paying on two days: one paying user in the period, two in the
    daily column. *)
Lemma repeat_payer_daily_sum :
  ∃ daily summary,
    compute_kpis ([] : list (UserRow.t string)) payments_repeat
      (mar 10 0 0) (mar 12 0 0) = Ok (daily, summary)
    ∧ (SummaryKPI.total_paying_users summary
       ≤ sum_list (DailyFrame.paying_users daily))%nat
    ∧ (sum_list (DailyFrame.paying_users daily) ≤ 2)%nat.
Proof.
  destruct (paying_users_total_le_daily_sum ([] : list (UserRow.t string))
              payments_repeat (mar 10 0 0) (mar 12 0 0))
    as (daily & summary & Hrun & Hle & Hle'); [by vm_compute|].
  exists daily, summary. refine (conj Hrun (conj Hle _)).
  etrans; [exact Hle'|]. by vm_compute.
Defined.

(** One identifier registered on two days: one distinct user, two new
    users. *)
Lemma duplicate_registration_bounds :
  ∃ daily summary,
    compute_kpis users_dup ([] : list (PaymentRow.t string string))
      (mar 10 0 0) (mar 12 0 0) = Ok (daily, summary)
    ∧ (1 ≤ SummaryKPI.total_new_users summary ≤ 2)%nat.
Proof.
  destruct (total_new_users_bounds users_dup
              ([] : list (PaymentRow.t string string))
              (mar 10 0 0) (mar 12 0 0))
    as (daily & summary & Hrun & Hlo & Hhi & _); [by vm_compute|].
  exists daily, summary. split; [exact Hrun|]. split.
  - etrans; [|exact Hlo]. by vm_compute.
  - etrans; [exact Hhi|]. by vm_compute.
Defined.

(** The sample week with both frames reversed. *)
Lemma sample_week_reversed_rows :
  ∃ daily summary daily' summary',
    compute_kpis users_week payments_week (mar 10 0 0) (mar 16 0 0)
      = Ok (daily, summary)
    ∧ compute_kpis (reverse users_week) (reverse payments_week)
        (mar 10 0 0) (mar 16 0 0) = Ok (daily', summary')
    ∧ DailyFrame.new_users daily = DailyFrame.new_users daily'
    ∧ DailyFrame.paying_users daily = DailyFrame.paying_users daily'
    ∧ SummaryKPI.conversion summary = SummaryKPI.conversion summary'.
Proof.
  destruct (counts_invariant_under_row_order
              users_week (reverse users_week)
              payments_week (reverse payments_week)
              (mar 10 0 0) (mar 16 0 0))
    as (daily & summary & daily' & summary' & Hrun & Hrun' & _ & Hnew & Hpay
        & _ & _ & _ & _ & Hconv);
    [symmetry; apply reverse_Permutation..|].
  exists daily, summary, daily', summary'.
  exact (conj Hrun (conj Hrun' (conj Hnew (conj Hpay Hconv)))).
Defined.

(** The period inferred from the sample week. *)
Lemma sample_week_period_midnights :
  normalize (mar 10 0 0) = mar 10 0 0 ∧ normalize (mar 16 0 0) = mar 16 0 0.
Proof.
  apply (resolved_period_is_midnights Iso8601.to_datetime
           users_week payments_week None None 7).
  by vm_compute.
Defined.

(** The report over the period inferred from the sample week. *)
Lemma sample_week_inferred_report :
  (∀ u, u ∈ users_week → normalize (UserRow.registered_at u) ≤ mar 16 0 0)
  ∧ ∃ daily summary,
      compute_kpis users_week payments_week (mar 10 0 0) (mar 16 0 0)
        = Ok (daily, summary)
      ∧ length (DailyFrame.date daily) = 7%nat
      ∧ last (DailyFrame.date daily) = Some (mar 16 0 0).
Proof.
  destruct (inferred_period_report Iso8601.to_datetime
              users_week payments_week None None 7 (mar 10 0 0) (mar 16 0 0))
    as (Hu & _ & _ & Hweek & _).
  - intros [[? [=]] _].
  - by vm_compute.
  - split; [exact Hu|].
    destruct Hweek as (daily & summary & Hrun & Hlen & _ & Hlast); [lia|].
    exists daily, summary. exact (conj Hrun (conj Hlen Hlast)).
Defined.

(** Two summaries of the sample week, one with its bounds at midnight and
    one with times of day. *)
Lemma sample_week_summary_dates :
  SummaryDict.end_date
    (summary_to_dict
       (SummaryKPI.mk (mar 10 0 0) (mar 16 0 0) 0 0 0 0 None))
  = SummaryDict.end_date
      (summary_to_dict
         (SummaryKPI.mk (mar 10 9 30) (mar 16 23 59) 0 0 0 0 None)).
Proof.
  apply (summary_dates_identify_days
           (SummaryKPI.mk (mar 10 0 0) (mar 16 0 0) 0 0 0 0 None)
           (SummaryKPI.mk (mar 10 9 30) (mar 16 23 59) 0 0 0 0 None));
    by vm_compute.
Defined.

(** The period of a summary of the sample week, read back. *)
Lemma sample_week_period_reads_back :
  compute_date_range Iso8601.to_datetime users_week payments_week
    (Some (SummaryDict.start_date
             (summary_to_dict
                (SummaryKPI.mk (mar 10 9 30) (mar 16 23 59) 0 0 0 0 None))))
    (Some (SummaryDict.end_date
             (summary_to_dict
                (SummaryKPI.mk (mar 10 9 30) (mar 16 23 59) 0 0 0 0 None))))
    7
  = Ok (normalize (mar 10 9 30), normalize (mar 16 23 59)).
Proof.
  apply (summary_period_reads_back users_week payments_week
           (SummaryKPI.mk (mar 10 9 30) (mar 16 23 59) 0 0 0 0 None) 7);
    by vm_compute.
Defined.

(** The sample week on 2025-03-11 and 2025-03-12, where nothing
    happened. *)
Lemma sample_week_quiet_days_report :
  compute_kpis users_week payments_week (mar 11 0 0) (mar 12 0 0)
  = Ok (DailyFrame.mk [mar 11 0 0; mar 12 0 0]
          [0; 0]%nat [0; 0]%nat [0; 0]%nat
          [0; 0]%float [0; 0]%float [0; 0]%float,
        SummaryKPI.mk (mar 11 0 0) (mar 12 0 0) 0 0 0%float 0%float None).
Proof.
  rewrite (compute_kpis_nothing_kept users_week payments_week
             (mar 11 0 0) (mar 12 0 0)); by vm_compute.
Defined.

Lemma sample_week_quiet_days_digest :
  ∃ daily summary,
    compute_kpis users_week payments_week (mar 11 0 0) (mar 12 0 0)
      = Ok (daily, summary)
    ∧ length (digest_lines (summary_to_dict summary)) = 6%nat
    ∧ format_summary_for_message (summary_to_dict summary)
      = Python.join Python.newline
          [ "📊 <b>Weekly KPI Report</b>";
            "2025-03-11 — 2025-03-12";
            "";
            "👥 Новых пользователей: <b>0</b>";
            "💳 Оплативших пользователей: <b>0</b>";
            "💰 Выручка: <b>0.00</b>" ].
Proof.
  pose proof (compute_kpis_run users_week payments_week
                (mar 11 0 0) (mar 12 0 0)) as Hrun.
  eexists _, _. split; [exact Hrun|].
  split; [by vm_compute|].
  rewrite (digest_of_period_without_rows users_week payments_week
             (mar 11 0 0) (mar 12 0 0) _ _
             ltac:(by vm_compute) ltac:(by vm_compute) Hrun).
  by vm_compute.
Defined.


(** The sample week: the payment of 2025-03-16 12:00 lies in the period
    and is the one the filter drops. *)
Lemma sample_week_dropped_payment :
  payments_in_period payments_week (mar 10 0 0) (mar 16 0 0) = payments_week
  ∧ payments_period payments_week (mar 10 0 0) (mar 16 0 0)
    = [payment "p1" "u1" 100 (mar 10 9 45)].
Proof.
  rewrite (payments_period_drops_end_date payments_week
             (mar 10 0 0) (mar 16 0 0)) by (by vm_compute).
  split; by vm_compute.
Defined.

(** One user paying on two days, neither of them the end date. *)
Lemma repeat_payer_as_specified :
  ∃ daily summary,
    compute_kpis ([] : list (UserRow.t string)) payments_repeat
      (mar 10 0 0) (mar 12 0 0) = Ok (daily, summary)
    ∧ SummaryKPI.total_paying_users summary = 1%nat.
Proof.
  destruct (paying_users_without_late_payments ([] : list (UserRow.t string))
              payments_repeat (mar 10 0 0) (mar 12 0 0))
    as (daily & summary & Hrun & Htotal & _).
  - by vm_compute.
  - by vm_compute.
  - intros p Hp. unfold payments_repeat in Hp.
    repeat (apply elem_of_cons in Hp as [->|Hp]);
      [..|by apply elem_of_nil in Hp];
      vm_compute; intros Heq; discriminate Heq.
  - exists daily, summary. split; [exact Hrun|]. rewrite Htotal.
    by vm_compute.
Defined.

End SampleRuns.

(** ** Runs of the whole program on the sample outside *)

Section ProgramRuns.

Import Sample.

(** A call with a file, every request answered with 200: the text message,
    then the document. *)
Lemma send_report_sample :
  ∃ out tr,
    send_telegram_message SampleRun.respond SampleRun.read_file
      SampleRun.path_name "TOKEN" "42" "digest" (Some "reports/r.xlsx") []
    = (out, tr)
    ∧ length tr = 2%nat.
Proof.
  eexists _, _. split; [vm_compute; reflexivity|].
  destruct (send_telegram_message_requests SampleRun.respond
              SampleRun.read_file SampleRun.path_name
              "TOKEN" "42" "digest" (Some "reports/r.xlsx") [] _ _
              eq_refl)
    as [(_ & [[=]|[=]] & _)|[(Htr & _)|(p & f & c & Htr & _)]];
    [discriminate Htr|reflexivity].
Defined.



(** The sample week with sending switched on and every call succeeding:
    the directory, the workbook, the digest, the report. *)
Lemma main_sample_effects :
  ∃ out tr workbook request1 request2,
    SampleRun.run SampleRun.config_on = (out, tr)
    ∧ outside tr
      = [IO.MakeDirs "reports";
         IO.WriteExcel "reports/weekly_kpi_report.xlsx" workbook;
         IO.Post request1; IO.Post request2]
    ∧ raw_users workbook = users_week
    ∧ raw_payments workbook = payments_week.
Proof.
  assert (∃ tr, SampleRun.run SampleRun.config_on = (IO.Return tt, tr))
    as [tr Hrun] by (eexists; vm_compute; reflexivity).
  unfold SampleRun.run in Hrun.
  destruct (main_outside_effects SampleRun.respond SampleRun.yes SampleRun.yes
              SampleRun.read_file SampleRun.load_week Iso8601.to_datetime
              SampleRun.path_parent SampleRun.path_name SampleRun.path_str
              SampleRun.config_on SampleRun.args [] _ _ Hrun)
    as [Htr|[Htr|(users & payments & a & b & daily & totals & posts & Hload
                  & _ & _ & _ & Htr & Hn)]].
  - exfalso. revert Hrun. vm_compute.
    intros [= <-]. vm_compute in Htr. discriminate Htr.
  - exfalso. revert Hrun. vm_compute.
    intros [= <-]. vm_compute in Htr. discriminate Htr.
  - injection Hload as <- <-.
    destruct Hn as [(_ & _ & Hoff)|[(_ & _ & Hf)|(_ & content & _ & -> & _)]].
    + exfalso. apply Hoff.
      split_and!; [reflexivity|reflexivity|discriminate|discriminate].
    + exfalso. destruct Hf as [[=]|[[=]|(code & _ & [=])]].
    + eexists _, _, _, _, _. split; [exact Hrun|]. split; [exact Htr|].
      split; reflexivity.
Defined.

(** The sample week with [config.py] as shipped: the workbook has the
    loaded frames and seven daily rows. *)
Lemma main_sample_default_report :
  ∃ out tr workbook,
    SampleRun.run SampleRun.config_shipped = (out, tr)
    ∧ IO.WriteExcel "reports/weekly_kpi_report.xlsx" workbook ∈ tr
    ∧ raw_users workbook = users_week
    ∧ raw_payments workbook = payments_week
    ∧ length (DailyFrame.date (daily_kpi workbook)) = 7%nat.
Proof.
  assert (∃ out tr workbook,
    SampleRun.run SampleRun.config_shipped = (out, tr)
    ∧ IO.WriteExcel "reports/weekly_kpi_report.xlsx" workbook ∈ tr)
    as (out & tr & workbook & Hrun & Hin).
  { eexists _, _, _. split; [vm_compute; reflexivity|].
    apply list_elem_of_In. simpl.
    repeat (first [left; reflexivity | right]). }
  unfold SampleRun.run in Hrun.
  destruct (main_default_report SampleRun.respond SampleRun.yes SampleRun.yes
              SampleRun.read_file SampleRun.load_week Iso8601.to_datetime
              SampleRun.path_parent SampleRun.path_name SampleRun.path_str
              SampleRun.config_shipped SampleRun.args _ _ _ _
              ltac:(by intros [[? [=]] _]) Hrun Hin)
    as (_ & Hload & Hlen & _).
  injection Hload as Hu Hp.
  exists out, tr, workbook.
  exact (conj Hrun (conj Hin (conj (eq_sym Hu) (conj (eq_sym Hp) Hlen)))).
Defined.

End ProgramRuns.
